(** * The planner / architect / coder pipeline of [agent/graph.py]

    A shallow embedding of the role functions [plannerAgent],
    [architectAgent] and [coderAgent], of the prompt builders of
    [agent/prompts.py] and of the three-node graph they are wired into,
    followed by the properties the specification states about them.

    Python values live in a small universe [pyval]; the pipeline state is a
    dictionary from strings to such values; the only object the code mutates
    in place, the [CoderState], lives in a store and is referred to by
    address, so that the state dictionary and the returned update alias it
    as they do in Python.  The model backend and the filesystem are the
    outside world: the backend is an oracle that sees the history of the
    run, and every read of a file and every backend invocation is recorded
    in a trace. *)

From Stdlib Require Import ZArith.
From stdpp Require Import gmap strings list fin_maps.

Local Open Scope string_scope.
Local Open Scope list_scope.

(** ** Typed state records ([states.py]) *)

(** One step of a task plan; the coder reads both fields. *)
Record ImplementationStep := {
  filepath : string;
  task_description : string
}.

(** The architect's result: an ordered sequence of steps. *)
Record TaskPlan := {
  implementation_steps : list ImplementationStep
}.

(** The coder's progress: a task plan and a cursor, a Python [int]. *)
Record CoderState := {
  task_plan : TaskPlan;
  current_step_idx : Z
}.

(** Addresses of the [CoderState] objects of the store. *)
Definition loc := nat.

(** Exceptions that the modelled code can raise. *)
Inductive pyerr :=
| ValueError (msg : string)
| KeyError (key : string)
| IndexError
| AttributeError
| ValidationError
| GraphRecursionError
| BackendError (msg : string).

(** A chat message of the request sent to the tool-calling agent. *)
Record message := {
  role : string;
  content : string
}.

(** A request to the model backend: a structured-output call for a named
    schema, or an invocation of the tool-calling agent. *)
Inductive request :=
| Structured (schema : string) (prompt : string)
| AgentInvoke (messages : list message).

(** Where an edge of the graph leads. *)
Inductive target :=
| END
| Node (name : string).

(** How the executor folds a role's returned dictionary into the state. *)
Inductive merge_policy :=
| Update
| Replace.

(** ** Prompt builders ([prompts.py]) *)

Definition plan_prompt (user_prompt : string) : string :=
  "
You are the PLANNER agent. Convert the user prompt into a COMPLETE engineering project plan.

User request:
" +:+ user_prompt +:+ "
    ".

Definition architect_prompt (plan : string) : string :=
  "
You are the ARCHITECT agent. Given this project plan, break it down into explicit engineering tasks.

RULES:
- For each FILE in the plan, create one or more IMPLEMENTATION TASKS.
- In each task description:
    * Specify exactly what to implement.
    * Name the variables, functions, classes, and components to be defined.
    * Mention how this task depends on or will be used by previous tasks.
    * Include integration details: imports, expected function signatures, data flow.
- Order tasks so that dependencies are implemented first.
- Each step must be SELF-CONTAINED but also carry FORWARD the relevant context from earlier tasks.

Project Plan:
" +:+ plan +:+ "
    ".

Definition coder_system_prompt : string :=
  "
You are the CODER agent.
You are implementing a specific engineering task.

AVAILABLE TOOLS (use EXACT names):
- read_file(path: str) - Reads content from a file
- write_file(path: str, content: str) - Writes content to a file
- list_files(directory: str) - Lists all files in a directory (NOTE: it's 'list_files' not 'list_file')
- get_current_directory() - Returns the current working directory

Always:
- Use the EXACT tool names above. Do not use variations like 'list_file' - use 'list_files'.
- Review all existing files to maintain compatibility.
- Implement the FULL file content, integrating with other modules.
- Maintain consistent naming of variables, functions, and imports.
- When a module is imported from another file, ensure it exists and is implemented as described.
    ".

(** The line break of the coder's task prompt. *)
Definition nl : string := String (Ascii.ascii_of_nat 10) EmptyString.

(** ** Values, events and the outside world *)

Section Values.

(** The [Plan] record of [states.py] and the transcript the tool-calling
    agent returns are never inspected by the code: it only tests them
    against [None] and serialises the plan. *)
Context {Plan Transcript : Type}.

(** The values a state dictionary holds. *)
Inductive pyval :=
| VNone
| VStr (s : string)
| VPlan (p : Plan)
| VTaskPlan (tp : TaskPlan)
| VCoderState (r : loc).

(** What the outside world has seen happen.  [BackendCall req null] is an
    invocation of the backend with [req]; [null] tells whether it returned
    [None] (an invocation that raised returned nothing, so it is logged
    with [false]). *)
Inductive event :=
| NodeInvoked (name : string)
| FileRead (path : string)
| BackendCall (req : request) (null : bool)
| Printed (result : gmap string pyval).

(** The store of mutable objects, the filesystem and the history. *)
Record World := {
  heap : gmap loc CoderState;
  fs : gmap string string;
  trace : list event
}.

(** The model backend.  Each entry sees the history so far; the agent also
    sees the filesystem and leaves it as its tool calls made it.  An
    invocation raises an exception ([inl]), as a network or service failure
    does, or returns ([inr]): Python's [None] or a value. *)
Record Backend := {
  structured_plan : list event → string → pyerr + option Plan;
  structured_task_plan : list event → string → pyerr + option TaskPlan;
  react_agent : list event → gmap string string → list message →
                (pyerr + option Transcript) * gmap string string
}.

End Values.

(** ** A sample backend and sample states

    Concrete data on which the statements below are exercised: a backend
    whose plans and transcripts are trivial, which always answers, and whose
    architect answers a plan of two steps. *)

Definition sample_steps : list ImplementationStep :=
  [ {| filepath := "index.html"; task_description := "Create the page markup" |};
    {| filepath := "script.js"; task_description := "Implement the arithmetic" |} ].

Definition sample_task_plan : TaskPlan :=
  {| implementation_steps := sample_steps |}.

Definition sample_llm : @Backend unit unit :=
  {| structured_plan := λ _ _, inr (Some tt);
     structured_task_plan := λ _ _, inr (Some sample_task_plan);
     react_agent := λ _ files _, (inr (Some tt), files) |}.

(** How the sample renders its objects: by an empty text. *)
Definition sample_text : gmap loc CoderState → @pyval unit → string :=
  λ _ _, "".

Definition empty_world : @World unit :=
  {| heap := ∅; fs := ∅; trace := [] |}.

(** A world whose store holds, at address 0, a coder state over the sample
    plan with cursor [i]. *)
Definition world_at (i : Z) : @World unit :=
  {| heap := {[ 0 := {| task_plan := sample_task_plan; current_step_idx := i |} ]};
     fs := ∅; trace := [] |}.

(** A state that holds the coder state at address 0. *)
Definition state_with_coder_state : gmap string (@pyval unit) :=
  {[ "coder_state" := VCoderState 0 ]}.

(** A state as the architect leaves it when its task plan has no step. *)
Definition state_with_empty_plan : gmap string (@pyval unit) :=
  <[ "task_plan" := VTaskPlan {| implementation_steps := [] |} ]> {[ "plan" := VPlan tt ]}.

(** A state as the planner leaves it. *)
Definition state_with_plan : gmap string (@pyval unit) :=
  {[ "plan" := VPlan tt ]}.

(** A state as the program hands it to the pipeline. *)
Definition state_with_request : gmap string (@pyval unit) :=
  {[ "user_prompt" := VStr "Create a to-do list app" ]}.

(** A backend whose agent never answers. *)
Definition mute_llm : @Backend unit unit :=
  {| structured_plan := λ _ _, inr (Some tt);
     structured_task_plan := λ _ _, inr (Some sample_task_plan);
     react_agent := λ _ files _, (inr None, files) |}.

(** A backend that cannot be reached: every invocation raises. *)
Definition unreachable_llm : @Backend unit unit :=
  {| structured_plan := λ _ _, inl (BackendError "Connection error.");
     structured_task_plan := λ _ _, inl (BackendError "Connection error.");
     react_agent := λ _ files _, (inl (BackendError "Connection error."), files) |}.

Section Pipeline.

Context {Plan Transcript : Type}.

Local Abbreviation pyval := (@pyval Plan).
Local Abbreviation event := (@event Plan).
Local Abbreviation World := (@World Plan).
Local Abbreviation Backend := (@Backend Plan Transcript).

(** [llm = ChatGroq(...)], the module-level backend handle. *)
Variable llm : Backend.

(** [model_dump_json(indent=2)] and [str] of a pydantic object; the
    classes that define them are in [states.py]. *)
Variable model_dump_json : gmap loc CoderState → pyval → string.
Variable model_str : gmap loc CoderState → pyval → string.

(** ** A state and exception monad over the world *)

Definition M (A : Type) : Type := World → (pyerr + A) * World.

Definition ret {A} (x : A) : M A := λ w, (inr x, w).

Definition raise {A} (e : pyerr) : M A := λ w, (inl e, w).

Definition bind {A B} (m : M A) (k : A → M B) : M B :=
  λ w, match m w with
       | (inl e, w') => (inl e, w')
       | (inr x, w') => k x w'
       end.

Notation "'let*' x := m 'in' k" := (bind m (λ x, k))
  (at level 10, x name, m at level 100, k at level 200).

Definition log (e : event) : M unit :=
  λ w, (inr tt, {| heap := heap w; fs := fs w; trace := trace w ++ [e] |}).

(** ** Python primitives the roles use *)

(** [d[k]] *)
Definition dict_getitem (d : gmap string pyval) (k : string) : M pyval :=
  match d !! k with
  | Some v => ret v
  | None => raise (KeyError k)
  end.

(** [d.get(k)] *)
Definition dict_get (d : gmap string pyval) (k : string) : pyval :=
  default VNone (d !! k).

(** The element [l[i]] denotes, negative indices counting from the end. *)
Definition py_index {A} (l : list A) (i : Z) : option A :=
  let j := if (i <? 0)%Z then (i + Z.of_nat (length l))%Z else i in
  if (j <? 0)%Z then None else l !! Z.to_nat j.

(** [l[i]] *)
Definition list_getitem {A} (l : list A) (i : Z) : M A :=
  match py_index l i with
  | Some x => ret x
  | None => raise IndexError
  end.

(** [CoderState(task_plan=v, current_step_idx=i)]: validates the plan and
    allocates a new object. *)
Definition new_CoderState (v : pyval) (i : Z) : M pyval :=
  match v with
  | VTaskPlan tp =>
      λ w, let r := fresh (dom (heap w)) in
           (inr (VCoderState r),
            {| heap := <[r := {| task_plan := tp; current_step_idx := i |}]> (heap w);
               fs := fs w; trace := trace w |})
  | _ => raise ValidationError
  end.

(** Attribute access on what should be a [CoderState]. *)
Definition deref (v : pyval) : M CoderState :=
  match v with
  | VCoderState r =>
      λ w, match heap w !! r with
           | Some cs => (inr cs, w)
           | None => (inl AttributeError, w)
           end
  | _ => raise AttributeError
  end.

(** [coder_state.current_step_idx += 1] *)
Definition incr_current_step_idx (v : pyval) : M unit :=
  let* cs := deref v in
  match v with
  | VCoderState r =>
      λ w, (inr tt,
            {| heap := <[r := {| task_plan := task_plan cs;
                                 current_step_idx := current_step_idx cs + 1 |}]> (heap w);
               fs := fs w; trace := trace w |})
  | _ => raise AttributeError
  end.

(** [hasattr(v, 'model_dump_json')]: the pydantic objects have it. *)
Definition hasattr_model_dump_json (v : pyval) : bool :=
  match v with
  | VNone | VStr _ => false
  | _ => true
  end.

(** The text of [str(v)] when the store is [h]. *)
Definition str_in (h : gmap loc CoderState) (v : pyval) : string :=
  match v with
  | VNone => "None"
  | VStr s => s
  | _ => model_str h v
  end.

(** [str(v)], also what an f-string interpolates. *)
Definition py_str (v : pyval) : M string :=
  λ w, (inr (str_in (heap w) v), w).

(** Whether an invocation of the backend returned [None]. *)
Definition is_null {A} (o : pyerr + option A) : bool :=
  match o with
  | inr None => true
  | _ => false
  end.

(** ** The model backend and the file tools *)

(** [llm.with_structured_output(Plan).invoke(prompt)] *)
Definition invoke_structured_Plan (prompt : string) : M (option Plan) :=
  λ w, let response := structured_plan llm (trace w) prompt in
       (response,
        {| heap := heap w; fs := fs w;
           trace := trace w ++ [BackendCall (Structured "Plan" prompt) (is_null response)] |}).

(** [llm.with_structured_output(TaskPlan).invoke(prompt)] *)
Definition invoke_structured_TaskPlan (prompt : string) : M (option TaskPlan) :=
  λ w, let response := structured_task_plan llm (trace w) prompt in
       (response,
        {| heap := heap w; fs := fs w;
           trace := trace w ++ [BackendCall (Structured "TaskPlan" prompt) (is_null response)] |}).

(** [create_react_agent(llm, code_tools).invoke({"messages": messages})]:
    the agent may call the file tools any number of times before it
    answers, so the filesystem is whatever it leaves behind. *)
Definition invoke_react_agent (messages : list message) : M (option Transcript) :=
  λ w, let answer := react_agent llm (trace w) (fs w) messages in
       (answer.1,
        {| heap := heap w; fs := answer.2;
           trace := trace w ++ [BackendCall (AgentInvoke messages) (is_null answer.1)] |}).

(** Modelled from the spec: the [read_file] tool of [tools.py], which is
    not among the sources.  It yields the text of the file, and the empty
    text for a path that does not exist; it does not raise. *)
Definition read_file (path : string) : M string :=
  λ w, (inr (default "" (fs w !! path)),
        {| heap := heap w; fs := fs w; trace := trace w ++ [FileRead path] |}).

(** ** The role functions ([graph.py]) *)

Definition plannerAgent (state : gmap string pyval) : M (gmap string pyval) :=
  let* user_prompt := dict_getitem state "user_prompt" in
  let* text := py_str user_prompt in
  let* response := invoke_structured_Plan (plan_prompt text) in
  match response with
  | None =>
      raise (ValueError "Planner agent failed to generate a valid response for Planner Agent")
  | Some p => ret {[ "plan" := VPlan p ]}
  end.

Definition architectAgent (state : gmap string pyval) : M (gmap string pyval) :=
  let* plan := dict_getitem state "plan" in
  let* plan_str :=
    if hasattr_model_dump_json plan
    then λ w, (inr (model_dump_json (heap w) plan), w)
    else py_str plan in
  let* response := invoke_structured_TaskPlan (architect_prompt plan_str) in
  match response with
  | None =>
      raise (ValueError "Architect agent failed to generate a valid response for Architect Agent")
  | Some tp => ret (<[ "task_plan" := VTaskPlan tp ]> {[ "plan" := plan ]})
  end.

(** The task prompt the coder builds for one step. *)
Definition coder_user_prompt (current_task : ImplementationStep)
    (existing_content : string) : string :=
  "Task: " +:+ task_description current_task +:+ nl +:+
  "File: " +:+ filepath current_task +:+ nl +:+
  "Existing content:" +:+ nl +:+ existing_content +:+ nl +:+
  "Use write_file(path, content) to save your changes.".

Definition coderAgent (state : gmap string pyval) : M (gmap string pyval) :=
  let* coder_state :=
    match dict_get state "coder_state" with
    | VNone =>
        let* tp := dict_getitem state "task_plan" in
        new_CoderState tp 0
    | v => ret v
    end in
  let* cs := deref coder_state in
  let steps := implementation_steps (task_plan cs) in
  let current_step_index := current_step_idx cs in
  if (current_step_index >=? Z.of_nat (length steps))%Z
  then ret (<[ "coder_state" := coder_state ]> {[ "status" := VStr "DONE" ]})
  else
    let* current_task := list_getitem steps current_step_index in
    let* existing_content := read_file (filepath current_task) in
    let user_prompt := coder_user_prompt current_task existing_content in
    let system_prompt := coder_system_prompt in
    let* result :=
      invoke_react_agent [ {| role := "system"; content := system_prompt |};
                           {| role := "user"; content := user_prompt |} ] in
    match result with
    | None =>
        raise (ValueError "Coder agent failed to generate a valid response for Coder Agent")
    | Some _ =>
        let* _ := incr_current_step_idx coder_state in
        ret {[ "coder_state" := coder_state ]}
    end.

(** ** The graph ([graph.py]) *)

(** What [StateGraph(dict)] accumulates as the builder methods are called. *)
Record StateGraph := {
  nodes : gmap string (gmap string pyval → M (gmap string pyval));
  entry_point : option string;
  edges : list (string * string);
  branches : gmap string ((gmap string pyval → string) * gmap string target)
}.

Definition new_StateGraph : StateGraph :=
  {| nodes := ∅; entry_point := None; edges := []; branches := ∅ |}.

Definition add_node (name : string)
    (action : gmap string pyval → M (gmap string pyval)) (g : StateGraph) : StateGraph :=
  {| nodes := <[ name := action ]> (nodes g); entry_point := entry_point g;
     edges := edges g; branches := branches g |}.

Definition set_entry_point (name : string) (g : StateGraph) : StateGraph :=
  {| nodes := nodes g; entry_point := Some name;
     edges := edges g; branches := branches g |}.

Definition add_edge (src dst : string) (g : StateGraph) : StateGraph :=
  {| nodes := nodes g; entry_point := entry_point g;
     edges := edges g ++ [(src, dst)]; branches := branches g |}.

Definition add_conditional_edges (src : string) (path : gmap string pyval → string)
    (path_map : gmap string target) (g : StateGraph) : StateGraph :=
  {| nodes := nodes g; entry_point := entry_point g;
     edges := edges g; branches := <[ src := (path, path_map) ]> (branches g) |}.

(** [s.get("status") == "DONE"] *)
Definition status_is_DONE (s : gmap string pyval) : bool :=
  match dict_get s "status" with
  | VStr v => String.eqb v "DONE"
  | _ => false
  end.

(** [lambda s: "END" if s.get("status") == "DONE" else "coder"] *)
Definition route_after_coder (s : gmap string pyval) : string :=
  if status_is_DONE s then "END" else "coder".

Definition graph : StateGraph :=
  add_conditional_edges "coder" route_after_coder
    (<[ "END" := END ]> {[ "coder" := Node "coder" ]})
  (add_edge "architect" "coder"
  (add_edge "plan" "architect"
  (set_entry_point "plan"
  (add_node "coder" coderAgent
  (add_node "architect" architectAgent
  (add_node "plan" plannerAgent new_StateGraph)))))).

(** ** The graph executor *)

(** The unconditional successor of a node, if it has one. *)
Fixpoint edge_from (name : string) (es : list (string * string)) : option string :=
  match es with
  | [] => None
  | (src, dst) :: es' => if String.eqb src name then Some dst else edge_from name es'
  end.

(** The edge that applies after node [name] ran and left state [s]. *)
Definition next_target (g : StateGraph) (name : string) (s : gmap string pyval)
    : pyerr + target :=
  match edge_from name (edges g) with
  | Some dst => inr (Node dst)
  | None =>
      match branches g !! name with
      | Some (path, path_map) =>
          match path_map !! path s with
          | Some t => inr t
          | None => inl (KeyError (path s))
          end
      | None => inl (KeyError name)
      end
  end.

(** Folding a returned dictionary into the state: [Update] keeps the keys
    the dictionary does not mention, [Replace] keeps only the dictionary. *)
Definition merge_state (policy : merge_policy) (s update : gmap string pyval)
    : gmap string pyval :=
  match policy with
  | Update => update ∪ s
  | Replace => update
  end.

(** Modelled from the spec: the executor of the compiled graph, which is
    the graph library's and not among the sources.  It invokes the current
    node's role function, merges the returned partial update into the state
    and follows the applicable edge, until the end marker is reached.  An
    exception of a role ends the run.  [fuel] bounds the number of node
    invocations. *)
Fixpoint execute (fuel : nat) (g : StateGraph) (policy : merge_policy)
    (cur : target) (s : gmap string pyval) : M (gmap string pyval) :=
  match cur with
  | END => ret s
  | Node name =>
      match fuel with
      | O => raise GraphRecursionError
      | S fuel' =>
          match nodes g !! name with
          | None => raise (KeyError name)
          | Some action =>
              let* _ := log (NodeInvoked name) in
              let* update := action s in
              let s' := merge_state policy s update in
              match next_target g name s' with
              | inl e => raise e
              | inr next => execute fuel' g policy next s'
              end
          end
      end
  end.

(** [graph.compile().invoke(input)] *)
Definition invoke (fuel : nat) (policy : merge_policy) (input : gmap string pyval)
    : M (gmap string pyval) :=
  match entry_point graph with
  | Some name => execute fuel graph policy (Node name) input
  | None => raise (ValueError "Graph must have an entrypoint")
  end.

(** ** The program *)

Definition user_prompt : string := "Create a simple claculator web app".

(** [result = agent.invoke({"user_prompt": user_prompt}); print(result)] *)
Definition main (fuel : nat) (policy : merge_policy) : M unit :=
  let* result := invoke fuel policy {[ "user_prompt" := VStr user_prompt ]} in
  log (Printed result).

(** ** Vocabulary of the statements *)

(** The coder state an invocation of the coder works on: the one the state
    holds, or else a new one at cursor 0 over the state's task plan. *)
Definition seen_coder_state (s : gmap string pyval) (w : World) : option CoderState :=
  match dict_get s "coder_state" with
  | VNone =>
      match s !! "task_plan" with
      | Some (VTaskPlan tp) => Some {| task_plan := tp; current_step_idx := 0 |}
      | _ => None
      end
  | VCoderState r => heap w !! r
  | _ => None
  end.

(** Number of steps of the plan a coder state carries. *)
Definition step_count (cs : CoderState) : Z :=
  Z.of_nat (length (implementation_steps (task_plan cs))).

(** The coder state one step further. *)
Definition advanced (cs : CoderState) : CoderState :=
  {| task_plan := task_plan cs; current_step_idx := current_step_idx cs + 1 |}.

(** The completion signal for the coder state at [r]. *)
Definition DONE_signal (r : loc) : gmap string pyval :=
  <[ "coder_state" := VCoderState r ]> {[ "status" := VStr "DONE" ]}.

(** The executor invoking node [name]. *)
Definition is_invocation (name : string) (e : event) : bool :=
  match e with
  | NodeInvoked n => String.eqb n name
  | _ => false
  end.

(** A backend invocation that returned [None]. *)
Definition is_null_call (e : event) : bool :=
  match e with
  | BackendCall _ true => true
  | _ => false
  end.

(** [invoke_coder_repeatedly policy k s]: the coder invoked [k] times in a
    row, each returned dictionary merged into the state before the next
    invocation; the result lists what the invocations returned. *)
Fixpoint invoke_coder_repeatedly (policy : merge_policy) (k : nat)
    (s : gmap string pyval) : M (list (gmap string pyval)) :=
  match k with
  | O => ret []
  | S k' =>
      let* u := coderAgent s in
      let* us := invoke_coder_repeatedly policy k' (merge_state policy s u) in
      ret (u :: us)
  end.

(** The text the architect puts in its prompt for the plan value [plan]. *)
Definition plan_text (h : gmap loc CoderState) (plan : pyval) : string :=
  if hasattr_model_dump_json plan then model_dump_json h plan else str_in h plan.

(** Allocation of a coder state in the store. *)
Definition alloc (cs : CoderState) (w : World) : World :=
  {| heap := <[ fresh (dom (heap w)) := cs ]> (heap w); fs := fs w; trace := trace w |}.

(** The world after the coder read the target file of [task]. *)
Definition after_read (task : ImplementationStep) (w : World) : World :=
  {| heap := heap w; fs := fs w; trace := trace w ++ [FileRead (filepath task)] |}.

(** The request the coder sends for [task] in world [w]. *)
Definition coder_messages (task : ImplementationStep) (w : World) : list message :=
  [ {| role := "system"; content := coder_system_prompt |};
    {| role := "user";
       content := coder_user_prompt task (default "" (fs w !! filepath task)) |} ].

(** The world after the agent answered the coder's request for [task]. *)
Definition after_agent (task : ImplementationStep) (w : World) : World :=
  let answer := react_agent llm (trace (after_read task w)) (fs w) (coder_messages task w) in
  {| heap := heap w; fs := answer.2;
     trace := trace (after_read task w) ++
              [BackendCall (AgentInvoke (coder_messages task w)) (is_null answer.1)] |}.

(** The world once [e] is appended to its history. *)
Definition logged (e : event) (w : World) : World :=
  {| heap := heap w; fs := fs w; trace := trace w ++ [e] |}.

(** How many of the events satisfy [P]. *)
Fixpoint count_events (P : event → bool) (evs : list event) : nat :=
  match evs with
  | [] => 0
  | e :: evs' => (if P e then 1 else 0) + count_events P evs'
  end.

(** An invocation of the tool-calling agent, that is, a processed step. *)
Definition is_agent_call (e : event) : bool :=
  match e with
  | BackendCall (AgentInvoke _) _ => true
  | _ => false
  end.

(** No backend invocation among [evs] returned [None]. *)
Definition answered (evs : list event) : Prop :=
  Forall (λ e, is_null_call e = false) evs.

(** How a computation that added [evs] to the history and ended in [res]
    can have gone: no backend invocation returned [None] and the
    computation returned or ran out of fuel; or the last thing that
    happened is a backend invocation that returned [None], the first such,
    and the computation raised the role's [ValueError]; or the last thing
    that happened is a backend invocation that raised, and the computation
    ended in an exception. *)
Definition outcome {A} (evs : list event) (res : pyerr + A) : Prop :=
  (answered evs ∧ ((∃ x, res = inr x) ∨ res = inl GraphRecursionError)) ∨
  (∃ (pre : list event) req msg, evs = pre ++ [BackendCall req true] ∧ answered pre ∧
                  res = inl (ValueError msg)) ∨
  (∃ (pre : list event) req e, evs = pre ++ [BackendCall req false] ∧ answered pre ∧
                  res = inl e).

(** The paths of the files read among [evs], in the order of the reads. *)
Fixpoint file_reads (evs : list event) : list string :=
  match evs with
  | [] => []
  | FileRead path :: evs' => path :: file_reads evs'
  | _ :: evs' => file_reads evs'
  end.

(** Something printed to standard output. *)
Definition is_printed (e : event) : bool :=
  match e with
  | Printed _ => true
  | _ => false
  end.

(** Nothing among [evs] was printed. *)
Definition silent (evs : list event) : Prop :=
  Forall (λ e, is_printed e = false) evs.

(** ** The coder, case by case *)

Lemma fresh_loc_unused (w : World) : heap w !! fresh (dom (heap w)) = None.
Proof. apply not_elem_of_dom, is_fresh. Qed.

Lemma coderAgent_fresh s w tp :
  dict_get s "coder_state" = VNone →
  s !! "task_plan" = Some (VTaskPlan tp) →
  coderAgent s w =
  coderAgent (<[ "coder_state" := VCoderState (fresh (dom (heap w))) ]> s)
             (alloc {| task_plan := tp; current_step_idx := 0 |} w).
Proof.
  intros Hget Htp. unfold coderAgent at 1 2, bind, dict_getitem.
  rewrite Hget, Htp. unfold dict_get. rewrite lookup_insert_eq. reflexivity.
Qed.

Lemma coderAgent_terminal s w r cs :
  dict_get s "coder_state" = VCoderState r →
  heap w !! r = Some cs →
  (step_count cs ≤ current_step_idx cs)%Z →
  coderAgent s w = (inr (DONE_signal r), w).
Proof.
  intros Hget Hr Hge. unfold coderAgent, bind. rewrite Hget. simpl. rewrite Hr.
  unfold step_count in Hge.
  destruct (current_step_idx cs >=? _)%Z eqn:E; [reflexivity | lia].
Qed.

Lemma coderAgent_step s w r cs task :
  dict_get s "coder_state" = VCoderState r →
  heap w !! r = Some cs →
  (current_step_idx cs < step_count cs)%Z →
  py_index (implementation_steps (task_plan cs)) (current_step_idx cs) = Some task →
  coderAgent s w =
  match (react_agent llm (trace (after_read task w)) (fs w) (coder_messages task w)).1 with
  | inl e => (inl e, after_agent task w)
  | inr None =>
      (inl (ValueError "Coder agent failed to generate a valid response for Coder Agent"),
       after_agent task w)
  | inr (Some _) =>
      (inr {[ "coder_state" := VCoderState r ]},
       {| heap := <[ r := advanced cs ]> (heap w);
          fs := fs (after_agent task w); trace := trace (after_agent task w) |})
  end.
Proof.
  intros Hget Hr Hlt Hidx. unfold coderAgent, bind. rewrite Hget. simpl. rewrite Hr.
  unfold step_count in Hlt.
  destruct (current_step_idx cs >=? _)%Z eqn:E; [lia |].
  unfold list_getitem. rewrite Hidx.
  unfold after_agent, after_read, coder_messages, ret, read_file, invoke_react_agent.
  cbn [fst snd heap fs trace].
  destruct (react_agent _ _ _ _) as [[e|[t|]] f']; cbn [fst snd is_null];
    [reflexivity | | reflexivity].
  unfold incr_current_step_idx, bind, deref. cbn [heap]. rewrite Hr. reflexivity.
Qed.

Lemma coderAgent_index_error s w r cs :
  dict_get s "coder_state" = VCoderState r →
  heap w !! r = Some cs →
  (current_step_idx cs < step_count cs)%Z →
  py_index (implementation_steps (task_plan cs)) (current_step_idx cs) = None →
  coderAgent s w = (inl IndexError, w).
Proof.
  intros Hget Hr Hlt Hidx. unfold coderAgent, bind. rewrite Hget. simpl. rewrite Hr.
  unfold step_count in Hlt.
  destruct (current_step_idx cs >=? _)%Z eqn:E; [lia |].
  unfold list_getitem. rewrite Hidx. reflexivity.
Qed.

Lemma py_index_in_range {A} (l : list A) (i : Z) :
  (- Z.of_nat (length l) ≤ i < Z.of_nat (length l))%Z → is_Some (py_index l i).
Proof.
  intros Hi. unfold py_index.
  destruct (i <? 0)%Z eqn:Hneg.
  - destruct (i + Z.of_nat (length l) <? 0)%Z eqn:E; [lia |].
    apply lookup_lt_is_Some. lia.
  - rewrite Hneg. apply lookup_lt_is_Some. lia.
Qed.

Lemma dict_get_merge_state policy (s u : gmap string pyval) k v :
  u !! k = Some v → dict_get (merge_state policy s u) k = v.
Proof.
  intros Hu. unfold dict_get. destruct policy; simpl.
  - by rewrite (lookup_union_Some_l u s k v Hu).
  - by rewrite Hu.
Qed.

Lemma DONE_signal_coder_state r : DONE_signal r !! "coder_state" = Some (VCoderState r).
Proof. unfold DONE_signal. apply lookup_insert_eq. Qed.

Lemma DONE_signal_status r : DONE_signal r !! "status" = Some (VStr "DONE").
Proof. unfold DONE_signal. rewrite lookup_insert_ne by done. apply lookup_singleton_eq. Qed.

Lemma seen_resolve s w cs :
  seen_coder_state s w = Some cs →
  ∃ s1 w1 r, coderAgent s w = coderAgent s1 w1 ∧
             dict_get s1 "coder_state" = VCoderState r ∧
             heap w1 !! r = Some cs ∧
             trace w1 = trace w ∧ fs w1 = fs w.
Proof.
  intros Hseen. unfold seen_coder_state in Hseen.
  destruct (dict_get s "coder_state") as [| | | |r] eqn:Hget; try discriminate.
  - destruct (s !! "task_plan") as [[| | |tp|]|] eqn:Htp; try discriminate.
    injection Hseen as <-.
    eexists _, _, _. split; [apply (coderAgent_fresh s w tp Hget Htp) |].
    split; [unfold dict_get; by rewrite lookup_insert_eq |].
    split; [apply lookup_insert_eq | done].
  - by exists s, w, r.
Qed.

(** The coder once its coder state is in the state dictionary, when the
    cursor is below the step count. *)
Lemma coder_step_resolved s w r cs :
  dict_get s "coder_state" = VCoderState r →
  heap w !! r = Some cs →
  (current_step_idx cs < step_count cs)%Z →
  ∀ u w', coderAgent s w = (inr u, w') →
    u = {[ "coder_state" := VCoderState r ]} ∧
    heap w' !! r = Some (advanced cs).
Proof.
  intros Hget Hr Hlt.
  destruct (py_index (implementation_steps (task_plan cs)) (current_step_idx cs))
    as [task|] eqn:Hidx.
  - rewrite (coderAgent_step s w r cs task Hget Hr Hlt Hidx).
    destruct (react_agent _ _ _ _).1 as [e|[t|]]; [discriminate | | discriminate].
    intros u w' [= <- <-]. split; [done |]. simpl. apply lookup_insert_eq.
  - by rewrite (coderAgent_index_error s w r cs Hget Hr Hlt Hidx).
Qed.

(** What a processing invocation of the coder comes to, by what the agent
    answers to the request for the step at the cursor. *)
Lemma coder_step_by_answer s w cs :
  seen_coder_state s w = Some cs →
  (0 ≤ current_step_idx cs < step_count cs)%Z →
  ∃ task,
    implementation_steps (task_plan cs) !! Z.to_nat (current_step_idx cs) = Some task ∧
    ∃ r w',
      trace w' = trace w ++
        [ FileRead (filepath task);
          BackendCall (AgentInvoke (coder_messages task w))
            (is_null (react_agent llm (trace w ++ [FileRead (filepath task)]) (fs w)
                        (coder_messages task w)).1) ] ∧
      match (react_agent llm (trace w ++ [FileRead (filepath task)]) (fs w)
               (coder_messages task w)).1 with
      | inl e =>
          coderAgent s w = (inl e, w') ∧ seen_coder_state s w' = Some cs
      | inr None =>
          coderAgent s w =
            (inl (ValueError "Coder agent failed to generate a valid response for Coder Agent"),
             w') ∧
          seen_coder_state s w' = Some cs
      | inr (Some _) =>
          coderAgent s w = (inr {[ "coder_state" := VCoderState r ]}, w') ∧
          heap w' !! r = Some (advanced cs)
      end.
Proof.
  intros Hseen [Hnn Hlt].
  destruct (lookup_lt_is_Some_2 (implementation_steps (task_plan cs))
              (Z.to_nat (current_step_idx cs))) as [task Htask];
    [unfold step_count in Hlt; lia |].
  assert (py_index (implementation_steps (task_plan cs)) (current_step_idx cs) = Some task)
    as Hidx.
  { unfold py_index. by rewrite !(proj2 (Z.ltb_ge _ 0) Hnn). }
  exists task. split; [done |].
  assert (∃ s1 w1 r,
            coderAgent s w = coderAgent s1 w1 ∧
            dict_get s1 "coder_state" = VCoderState r ∧ heap w1 !! r = Some cs ∧
            trace w1 = trace w ∧ fs w1 = fs w ∧
            ∀ w2, heap w2 = heap w1 → seen_coder_state s w2 = Some cs)
    as (s1 & w1 & r & -> & Hget & Hr & Htr & Hfs & Hkeep).
  { unfold seen_coder_state in Hseen |- *.
    destruct (dict_get s "coder_state") as [| | | |r] eqn:Hget; try discriminate.
    - destruct (s !! "task_plan") as [[| | |tp|]|] eqn:Htp; try discriminate.
      injection Hseen as <-.
      eexists _, _, _. split; [apply (coderAgent_fresh s w tp Hget Htp) |].
      split; [unfold dict_get; by rewrite lookup_insert_eq |].
      split; [apply lookup_insert_eq |]. done.
    - exists s, w, r. rewrite Hget. repeat (split; [done |]). by intros w2 ->. }
  rewrite (coderAgent_step s1 w1 r cs task Hget Hr Hlt Hidx).
  unfold after_agent, after_read, coder_messages. cbn [heap fs trace]. rewrite Htr, Hfs.
  exists r.
  destruct (react_agent _ _ _ _).1 as [e|[t|]]; eexists; cbn [is_null];
    (split; [| split; [reflexivity |]]); cbn [heap trace];
    try (by rewrite <- app_assoc).
  - by apply Hkeep.
  - apply lookup_insert_eq.
  - by apply Hkeep.
Qed.

(** ** The coder's cursor *)

(** C1.  In an invocation of the coder whose cursor is below the number of
    steps, whatever is returned is the dictionary with the single key
    [coder_state], hence without [status]; the coder state it names has the
    cursor one further and still at most the number of steps; and when that
    cursor has reached the number of steps, the next invocation, on the
    state with that dictionary merged in, returns the completion signal.
    With a cursor that is not negative the invocation is decided by what
    the agent answers to the request for the step at the cursor: on a
    transcript it returns, with the cursor advanced by one; on [None] it
    raises the coder's [ValueError]; on an exception of the agent it ends
    in that exception; and in both failures the cursor stays where it
    was. *)
Theorem coder_cursor_advances_by_one s w cs :
  seen_coder_state s w = Some cs →
  (current_step_idx cs < step_count cs)%Z →
  (∀ u w', coderAgent s w = (inr u, w') →
     ∃ r, u = {[ "coder_state" := VCoderState r ]} ∧
          u !! "status" = None ∧
          heap w' !! r = Some (advanced cs) ∧
          current_step_idx (advanced cs) = (current_step_idx cs + 1)%Z ∧
          (current_step_idx (advanced cs) ≤ step_count (advanced cs))%Z ∧
          ∀ policy, current_step_idx (advanced cs) = step_count (advanced cs) →
                    coderAgent (merge_state policy s u) w' = (inr (DONE_signal r), w')) ∧
  ((0 ≤ current_step_idx cs)%Z →
   ∃ task,
     implementation_steps (task_plan cs) !! Z.to_nat (current_step_idx cs) = Some task ∧
     match (react_agent llm (trace w ++ [FileRead (filepath task)]) (fs w)
              (coder_messages task w)).1 with
     | inr (Some _) =>
         ∃ r w', coderAgent s w = (inr {[ "coder_state" := VCoderState r ]}, w') ∧
                 heap w' !! r = Some (advanced cs)
     | inr None =>
         ∃ w', coderAgent s w =
                 (inl (ValueError
                         "Coder agent failed to generate a valid response for Coder Agent"),
                  w') ∧
               seen_coder_state s w' = Some cs
     | inl e =>
         ∃ w', coderAgent s w = (inl e, w') ∧ seen_coder_state s w' = Some cs
     end).
Proof.
  intros Hseen Hlt. split.
  - destruct (seen_resolve s w cs Hseen) as (s1 & w1 & r & Heq & Hget & Hr & _ & _).
    rewrite Heq.
    intros u w' Hrun.
    destruct (coder_step_resolved s1 w1 r cs Hget Hr Hlt u w' Hrun) as [-> Hr'].
    exists r. split; [done |]. split; [done |]. split; [done |].
    split; [done |]. split; [unfold advanced, step_count in *; simpl; lia |].
    intros policy Hend.
    apply (coderAgent_terminal _ w' r (advanced cs)); [| done | lia].
    apply dict_get_merge_state, lookup_singleton_eq.
  - intros Hnn.
    destruct (coder_step_by_answer s w cs Hseen ltac:(lia))
      as (task & Htask & r & w' & _ & Hcase).
    exists task. split; [done |].
    destruct (react_agent _ _ _ _).1 as [e|[t|]]; by eauto.
Qed.

(** C2.  In an invocation of the coder whose cursor is at or beyond the
    number of steps, the coder returns exactly the dictionary with
    [coder_state] and [status] = "DONE"; the history is as it was, so no
    file was read and the backend was not invoked; the filesystem and every
    object of the store are as they were, and the cursor of the coder state
    is the one the invocation found.  When the state already held the coder
    state, the world is left as it was altogether. *)
Theorem coder_terminal_returns_DONE s w cs :
  seen_coder_state s w = Some cs →
  (current_step_idx cs >= step_count cs)%Z →
  ∃ r w', coderAgent s w = (inr (DONE_signal r), w') ∧
          dom (DONE_signal r) = {[ "coder_state"; "status" ]} ∧
          DONE_signal r !! "status" = Some (VStr "DONE") ∧
          heap w' !! r = Some cs ∧
          trace w' = trace w ∧
          fs w' = fs w ∧
          (∀ r0 cs0, heap w !! r0 = Some cs0 → heap w' !! r0 = Some cs0) ∧
          (dict_get s "coder_state" ≠ VNone →
           dict_get s "coder_state" = VCoderState r ∧ w' = w).
Proof.
  intros Hseen Hge. unfold seen_coder_state in Hseen.
  assert (∀ r, dom (DONE_signal r) = ({[ "coder_state"; "status" ]} : gset string)) as Hdom.
  { intros r. unfold DONE_signal. rewrite dom_insert_L, dom_singleton_L. done. }
  destruct (dict_get s "coder_state") as [| | | |r] eqn:Hget; try discriminate.
  - destruct (s !! "task_plan") as [[| | |tp|]|] eqn:Htp; try discriminate.
    injection Hseen as <-.
    set (cs := {| task_plan := tp; current_step_idx := 0 |}) in *.
    exists (fresh (dom (heap w))), (alloc cs w).
    rewrite (coderAgent_fresh s w tp Hget Htp).
    split.
    { apply (coderAgent_terminal _ _ _ cs); [| apply lookup_insert_eq | lia].
      unfold dict_get. by rewrite lookup_insert_eq. }
    split; [apply Hdom |]. split; [apply DONE_signal_status |].
    split; [apply lookup_insert_eq |]. split; [done |]. split; [done |].
    split; [| done].
    intros r0 cs0 Hr0. simpl. rewrite lookup_insert_ne; [done |].
    intros <-. rewrite fresh_loc_unused in Hr0. discriminate.
  - exists r, w. split; [apply (coderAgent_terminal s w r cs Hget Hseen); lia |].
    split; [apply Hdom |]. split; [apply DONE_signal_status |].
    repeat (split; [done |]). done.
Qed.

(** C6.  On a state whose coder state has its cursor at or beyond the
    number of steps, any number of invocations in a row, each merged into
    the state before the next, all return the same completion signal, and
    the world after them is the world before them: the coder state and the
    task plan it carries, with its steps, are untouched. *)
Theorem coder_DONE_is_idempotent policy k s w r cs :
  dict_get s "coder_state" = VCoderState r →
  heap w !! r = Some cs →
  (current_step_idx cs >= step_count cs)%Z →
  invoke_coder_repeatedly policy k s w = (inr (replicate k (DONE_signal r)), w) ∧
  coderAgent s w = (inr (DONE_signal r), w) ∧
  heap w !! r = Some cs.
Proof.
  intros Hget Hr Hge.
  split; [| split; [apply (coderAgent_terminal s w r cs Hget Hr); lia | done]].
  revert s Hget. induction k as [|k IH]; intros s Hget; [done |].
  simpl. unfold bind at 1.
  rewrite (coderAgent_terminal s w r cs Hget Hr) by lia.
  unfold bind. rewrite IH; [done |].
  apply dict_get_merge_state, DONE_signal_coder_state.
Qed.

(** ** The graph and its executor *)

Lemma status_is_DONE_spec (s : gmap string pyval) :
  status_is_DONE s = true ↔ s !! "status" = Some (VStr "DONE").
Proof.
  unfold status_is_DONE, dict_get.
  destruct (s !! "status") as [[|v| | |]|]; simpl; try (split; congruence).
  rewrite String.eqb_eq. split; congruence.
Qed.

Lemma nodes_graph_plan : nodes graph !! "plan" = Some plannerAgent.
Proof.
  unfold graph. simpl. do 2 (rewrite lookup_insert_ne by done). apply lookup_insert_eq.
Qed.

Lemma nodes_graph_architect : nodes graph !! "architect" = Some architectAgent.
Proof.
  unfold graph. simpl. rewrite lookup_insert_ne by done. apply lookup_insert_eq.
Qed.

Lemma nodes_graph_coder : nodes graph !! "coder" = Some coderAgent.
Proof. unfold graph. simpl. by rewrite lookup_insert_eq. Qed.

Lemma next_target_plan s : next_target graph "plan" s = inr (Node "architect").
Proof. reflexivity. Qed.

Lemma next_target_architect s : next_target graph "architect" s = inr (Node "coder").
Proof. reflexivity. Qed.

Lemma next_target_coder s :
  next_target graph "coder" s = inr (if status_is_DONE s then END else Node "coder").
Proof.
  unfold next_target, graph. simpl. rewrite lookup_insert_eq.
  unfold route_after_coder. destruct (status_is_DONE s).
  - by rewrite lookup_insert_eq.
  - rewrite lookup_insert_ne by done. by rewrite lookup_singleton_eq.
Qed.

Lemma execute_node fuel g policy name
    (action : gmap string pyval → M (gmap string pyval)) s w :
  nodes g !! name = Some action →
  execute (S fuel) g policy (Node name) s w =
  match action s (logged (NodeInvoked name) w) with
  | (inl e, w') => (inl e, w')
  | (inr u, w') =>
      match next_target g name (merge_state policy s u) with
      | inl e => (inl e, w')
      | inr next => execute fuel g policy next (merge_state policy s u) w'
      end
  end.
Proof.
  intros Hnode. cbn [execute]. rewrite Hnode. unfold bind, log, logged.
  destruct (action s _) as [[e|u] w']; [done |].
  by destruct (next_target g name _).
Qed.

Lemma execute_plan fuel policy s w :
  execute (S fuel) graph policy (Node "plan") s w =
  match plannerAgent s (logged (NodeInvoked "plan") w) with
  | (inl e, w') => (inl e, w')
  | (inr u, w') =>
      execute fuel graph policy (Node "architect") (merge_state policy s u) w'
  end.
Proof. by rewrite (execute_node _ _ _ _ _ _ _ nodes_graph_plan). Qed.

Lemma execute_architect fuel policy s w :
  execute (S fuel) graph policy (Node "architect") s w =
  match architectAgent s (logged (NodeInvoked "architect") w) with
  | (inl e, w') => (inl e, w')
  | (inr u, w') =>
      execute fuel graph policy (Node "coder") (merge_state policy s u) w'
  end.
Proof. by rewrite (execute_node _ _ _ _ _ _ _ nodes_graph_architect). Qed.

Lemma execute_coder fuel policy s w :
  execute (S fuel) graph policy (Node "coder") s w =
  match coderAgent s (logged (NodeInvoked "coder") w) with
  | (inl e, w') => (inl e, w')
  | (inr u, w') =>
      execute fuel graph policy
        (if status_is_DONE (merge_state policy s u) then END else Node "coder")
        (merge_state policy s u) w'
  end.
Proof.
  rewrite (execute_node _ _ _ _ _ _ _ nodes_graph_coder).
  destruct (coderAgent s _) as [[e|u] w']; [done |].
  by rewrite next_target_coder.
Qed.

Lemma execute_END fuel policy s w : execute fuel graph policy END s w = (inr s, w).
Proof. by destruct fuel. Qed.

(** C4.  The graph enters at [plan]; its unconditional edges are
    plan→architect and architect→coder, followed whatever the state is; and
    after the coder the end marker is selected exactly when the state's
    [status] is "DONE", the coder itself otherwise. *)
Theorem graph_topology :
  entry_point graph = Some "plan" ∧
  nodes graph !! "plan" = Some plannerAgent ∧
  nodes graph !! "architect" = Some architectAgent ∧
  nodes graph !! "coder" = Some coderAgent ∧
  edges graph = [("plan", "architect"); ("architect", "coder")] ∧
  (∀ s, next_target graph "plan" s = inr (Node "architect")) ∧
  (∀ s, next_target graph "architect" s = inr (Node "coder")) ∧
  (∀ s, next_target graph "coder" s = inr END ↔ s !! "status" = Some (VStr "DONE")) ∧
  (∀ s, s !! "status" ≠ Some (VStr "DONE") →
        next_target graph "coder" s = inr (Node "coder")).
Proof.
  split; [reflexivity |].
  split; [apply nodes_graph_plan |].
  split; [apply nodes_graph_architect |].
  split; [apply nodes_graph_coder |].
  split; [reflexivity |].
  split; [apply next_target_plan |].
  split; [apply next_target_architect |].
  split; intros s.
  - rewrite next_target_coder, <- status_is_DONE_spec.
    destruct (status_is_DONE s); split; congruence.
  - intros Hs. rewrite next_target_coder.
    destruct (status_is_DONE s) eqn:E; [| done].
    by apply status_is_DONE_spec in E.
Qed.

(** C10.  With a task plan of zero steps and no coder state yet, the first
    invocation of the coder builds a new coder state at cursor 0 and
    returns the completion signal for it; nothing is added to the history
    and the filesystem is untouched, so no file was read and the backend
    was not invoked; and an execution that has reached the coder node
    invokes the coder once and ends. *)
Theorem coder_zero_steps_is_DONE_at_once s w tp :
  dict_get s "coder_state" = VNone →
  s !! "task_plan" = Some (VTaskPlan tp) →
  implementation_steps tp = [] →
  let r := fresh (dom (heap w)) in
  let cs := {| task_plan := tp; current_step_idx := 0 |} in
  heap w !! r = None ∧
  coderAgent s w = (inr (DONE_signal r), alloc cs w) ∧
  heap (alloc cs w) !! r = Some cs ∧
  trace (alloc cs w) = trace w ∧
  fs (alloc cs w) = fs w ∧
  ∀ policy fuel,
    ∃ w', execute (S fuel) graph policy (Node "coder") s w =
            (inr (merge_state policy s (DONE_signal r)), w') ∧
          trace w' = trace w ++ [NodeInvoked "coder"] ∧
          fs w' = fs w.
Proof.
  intros Hget Htp Hnil r cs.
  assert (∀ w0 : World, coderAgent s w0 =
            (inr (DONE_signal (fresh (dom (heap w0)))), alloc cs w0)) as Hrun.
  { intros w0. rewrite (coderAgent_fresh s w0 tp Hget Htp).
    apply (coderAgent_terminal _ _ _ cs).
    - unfold dict_get. by rewrite lookup_insert_eq.
    - apply lookup_insert_eq.
    - unfold step_count. simpl. rewrite Hnil. simpl. lia. }
  split; [apply fresh_loc_unused |]. split; [apply Hrun |].
  split; [apply lookup_insert_eq |]. split; [done |]. split; [done |].
  intros policy fuel. eexists.
  rewrite execute_coder, Hrun.
  assert (status_is_DONE (merge_state policy s
            (DONE_signal (fresh (dom (heap (logged (NodeInvoked "coder") w)))))) = true) as ->.
  { unfold status_is_DONE. by rewrite (dict_get_merge_state _ _ _ _ _ (DONE_signal_status _)). }
  rewrite execute_END. done.
Qed.

(** ** The planner and the architect *)

Lemma plannerAgent_cases s w v :
  s !! "user_prompt" = Some v →
  plannerAgent s w =
  let req := Structured "Plan" (plan_prompt (str_in (heap w) v)) in
  match structured_plan llm (trace w) (plan_prompt (str_in (heap w) v)) with
  | inl e => (inl e, logged (BackendCall req false) w)
  | inr None =>
      (inl (ValueError "Planner agent failed to generate a valid response for Planner Agent"),
       logged (BackendCall req true) w)
  | inr (Some p) => (inr {[ "plan" := VPlan p ]}, logged (BackendCall req false) w)
  end.
Proof.
  intros Hs. unfold plannerAgent, bind, dict_getitem. rewrite Hs.
  unfold ret, py_str, invoke_structured_Plan, logged. cbn [heap fs trace].
  by destruct (structured_plan llm _ _) as [e|[p|]].
Qed.

Lemma architectAgent_cases s w plan :
  s !! "plan" = Some plan →
  architectAgent s w =
  let req := Structured "TaskPlan" (architect_prompt (plan_text (heap w) plan)) in
  match structured_task_plan llm (trace w) (architect_prompt (plan_text (heap w) plan)) with
  | inl e => (inl e, logged (BackendCall req false) w)
  | inr None =>
      (inl (ValueError "Architect agent failed to generate a valid response for Architect Agent"),
       logged (BackendCall req true) w)
  | inr (Some tp) =>
      (inr (<[ "task_plan" := VTaskPlan tp ]> {[ "plan" := plan ]}),
       logged (BackendCall req false) w)
  end.
Proof.
  intros Hs. unfold architectAgent, bind, dict_getitem. rewrite Hs.
  unfold ret, plan_text, invoke_structured_TaskPlan, logged.
  destruct (hasattr_model_dump_json plan); unfold py_str; cbn [heap fs trace];
    by destruct (structured_task_plan llm _ _) as [e|[tp|]].
Qed.

(** C7.  On a state that holds a plan, whatever the architect returns is
    the dictionary with exactly the keys [task_plan] and [plan], the latter
    bound to the very value the state held; and the architect does return,
    with the backend's task plan, whenever the backend answers one. *)
Theorem architect_passes_plan_through s w plan :
  s !! "plan" = Some plan →
  (∀ u w', architectAgent s w = (inr u, w') →
     ∃ tp, u = <[ "task_plan" := VTaskPlan tp ]> {[ "plan" := plan ]} ∧
           dom u = {[ "task_plan"; "plan" ]} ∧
           u !! "plan" = Some plan ∧
           u !! "task_plan" = Some (VTaskPlan tp)) ∧
  (∀ tp, structured_task_plan llm (trace w)
           (architect_prompt (plan_text (heap w) plan)) = inr (Some tp) →
     ∃ w', architectAgent s w =
             (inr (<[ "task_plan" := VTaskPlan tp ]> {[ "plan" := plan ]}), w')).
Proof.
  intros Hs. rewrite (architectAgent_cases s w plan Hs). cbv zeta. split.
  - intros u w'.
    destruct (structured_task_plan llm _ _) as [e|[tp|]]; [discriminate | | discriminate].
    intros [= <- <-]. exists tp. split; [done |].
    split; [by rewrite dom_insert_L, dom_singleton_L |].
    split; [rewrite lookup_insert_ne by done; apply lookup_singleton_eq |].
    apply lookup_insert_eq.
  - intros tp ->. by eexists.
Qed.


(** ** The coder in terms of the coder state it sees *)

Lemma coder_terminal_cases s w cs :
  seen_coder_state s w = Some cs →
  (step_count cs ≤ current_step_idx cs)%Z →
  ∃ r w', coderAgent s w = (inr (DONE_signal r), w') ∧
          trace w' = trace w ∧ fs w' = fs w ∧ heap w' !! r = Some cs.
Proof.
  intros Hseen Hge.
  destruct (seen_resolve s w cs Hseen) as (s1 & w1 & r & -> & Hget & Hr & Htr & Hfs).
  exists r, w1. by rewrite (coderAgent_terminal s1 w1 r cs Hget Hr Hge).
Qed.

Lemma coder_step_cases s w cs :
  seen_coder_state s w = Some cs →
  (0 ≤ current_step_idx cs < step_count cs)%Z →
  ∃ task tr f msgs r w',
    trace w' = trace w ++
      [ FileRead (filepath task);
        BackendCall (AgentInvoke msgs) (is_null (react_agent llm tr f msgs).1) ] ∧
    match (react_agent llm tr f msgs).1 with
    | inl e => coderAgent s w = (inl e, w')
    | inr None =>
        coderAgent s w =
        (inl (ValueError "Coder agent failed to generate a valid response for Coder Agent"), w')
    | inr (Some _) =>
        coderAgent s w = (inr {[ "coder_state" := VCoderState r ]}, w') ∧
        heap w' !! r = Some (advanced cs)
    end.
Proof.
  intros Hseen Hrange.
  destruct (coder_step_by_answer s w cs Hseen Hrange)
    as (task & _ & r & w' & Htr & Hcase).
  eexists task, _, _, _, r, w'. split; [exact Htr |].
  destruct (react_agent _ _ _ _).1 as [e|[t|]]; by destruct Hcase.
Qed.

Lemma lookup_merge_state_Some policy (s u : gmap string pyval) k v :
  u !! k = Some v → merge_state policy s u !! k = Some v.
Proof.
  intros Hu. destruct policy; simpl; [| done]. by apply lookup_union_Some_l.
Qed.

Lemma lookup_merge_state_None policy (s u : gmap string pyval) k :
  u !! k = None → s !! k = None → merge_state policy s u !! k = None.
Proof.
  intros Hu Hs. destruct policy; simpl; [| done]. by apply lookup_union_None.
Qed.

Lemma seen_after_merge policy s u w r cs :
  u !! "coder_state" = Some (VCoderState r) →
  heap w !! r = Some cs →
  seen_coder_state (merge_state policy s u) w = Some cs.
Proof.
  intros Hu Hr. unfold seen_coder_state.
  by rewrite (dict_get_merge_state policy s u _ _ Hu).
Qed.

(** ** Outcomes of roles and runs *)

Lemma answered_app evs1 evs2 : answered evs1 → answered evs2 → answered (evs1 ++ evs2).
Proof. apply Forall_app_2. Qed.

Lemma outcome_app {A} evs1 evs2 (res : pyerr + A) :
  answered evs1 → outcome evs2 res → outcome (evs1 ++ evs2) res.
Proof.
  intros H1 [[H2 Hres] | [(pre & req & msg & -> & Hpre & ->) | (pre & req & e & -> & Hpre & ->)]].
  - left. split; [by apply answered_app | done].
  - right. left. exists (evs1 ++ pre), req, msg.
    split; [by rewrite app_assoc |]. split; [by apply answered_app | done].
  - right. right. exists (evs1 ++ pre), req, e.
    split; [by rewrite app_assoc |]. split; [by apply answered_app | done].
Qed.

Lemma answered_no_null evs pre req post :
  answered evs → evs ≠ pre ++ BackendCall req true :: post.
Proof.
  intros Hans ->. apply Forall_app in Hans as [_ Hans].
  by apply Forall_cons in Hans as [Hans _].
Qed.

Lemma outcome_null_is_last {A} evs (res : pyerr + A) :
  outcome evs res →
  (∀ pre req post, evs = pre ++ BackendCall req true :: post →
     post = [] ∧ ∃ msg, res = inl (ValueError msg)) ∧
  (∀ e, res = inl e →
     e = GraphRecursionError ∨ ∃ pre req null, evs = pre ++ [BackendCall req null]).
Proof.
  intros [[Hans Hres] | [(pre0 & req0 & msg & -> & Hpre & ->) | (pre0 & req0 & e0 & -> & Hpre & ->)]];
    split.
  - intros pre req post Heq. by destruct (answered_no_null _ pre req post Hans).
  - intros e ->. destruct Hres as [[x Hx] | Hx]; [discriminate |]. injection Hx as ->. by left.
  - intros pre req post Heq.
    destruct post as [|z post _] using rev_ind; [by eauto |].
    exfalso. change (pre ++ BackendCall req true :: post ++ [z])
      with (pre ++ (BackendCall req true :: post) ++ [z]) in Heq.
    rewrite app_assoc in Heq. apply app_inj_tail in Heq as [-> _].
    by destruct (answered_no_null _ pre req post Hpre).
  - intros e _. right. by exists pre0, req0, true.
  - intros pre req post Heq. exfalso.
    apply (answered_no_null (pre0 ++ [BackendCall req0 false]) pre req post); [| done].
    apply answered_app; [done | by repeat constructor].
  - intros e _. right. by exists pre0, req0, false.
Qed.

Lemma coder_loop_outcome policy fuel :
  ∀ s w cs res w',
    seen_coder_state s w = Some cs →
    (0 ≤ current_step_idx cs)%Z →
    execute fuel graph policy (Node "coder") s w = (res, w') →
    ∃ evs, trace w' = trace w ++ evs ∧ outcome evs res.
Proof.
  induction fuel as [|fuel IH]; intros s w cs res w' Hseen Hnn Hrun.
  - injection Hrun as <- <-. exists []. rewrite app_nil_r. split; [done |].
    left. split; [constructor | by right].
  - rewrite execute_coder in Hrun.
    assert (seen_coder_state s (logged (NodeInvoked "coder") w) = Some cs) as Hseen' by done.
    destruct (decide (step_count cs ≤ current_step_idx cs)%Z) as [Hge | Hlt].
    + destruct (coder_terminal_cases _ _ _ Hseen' Hge) as (r & w1 & Hco & Htr & _ & _).
      rewrite Hco in Hrun.
      assert (status_is_DONE (merge_state policy s (DONE_signal r)) = true) as Hdone.
      { unfold status_is_DONE.
        by rewrite (dict_get_merge_state _ _ _ _ _ (DONE_signal_status _)). }
      rewrite Hdone, execute_END in Hrun. injection Hrun as <- <-.
      exists [NodeInvoked "coder"]. split; [done |].
      left. split; [by repeat constructor | left; by eexists].
    + destruct (coder_step_cases _ _ _ Hseen') as (task & tr & f & msgs & r & w1 & Htr & Hco);
        [lia |].
      destruct (react_agent llm tr f msgs).1 as [e|[t|]].
      * rewrite Hco in Hrun. injection Hrun as <- <-.
        eexists. split; [rewrite Htr; simpl; by rewrite <- app_assoc |].
        right. right.
        eexists [NodeInvoked "coder"; FileRead (filepath task)], (AgentInvoke msgs), _.
        split; [done |]. split; [by repeat constructor | done].
      * destruct Hco as [Hco Hr]. rewrite Hco in Hrun.
        set (s' := merge_state policy s _) in Hrun.
        assert (answered [NodeInvoked "coder"; FileRead (filepath task);
                          BackendCall (AgentInvoke msgs) false]) as Hans
          by (by repeat constructor).
        destruct (status_is_DONE s').
        -- rewrite execute_END in Hrun. injection Hrun as <- <-.
           eexists. split; [rewrite Htr; simpl; by rewrite <- app_assoc |].
           left. split; [done | left; by eexists].
        -- destruct (IH s' w1 (advanced cs) res w') as (evs & Htr' & Hout).
           { apply (seen_after_merge _ _ _ _ r); [apply lookup_singleton_eq | done]. }
           { simpl. lia. }
           { done. }
           eexists. split; [| apply (outcome_app _ evs _ Hans Hout)].
           rewrite Htr', Htr. simpl. by rewrite <- !app_assoc.
      * rewrite Hco in Hrun. injection Hrun as <- <-.
        eexists. split; [rewrite Htr; simpl; by rewrite <- app_assoc |].
        right. left.
        eexists [NodeInvoked "coder"; FileRead (filepath task)], (AgentInvoke msgs), _.
        split; [done |]. split; [by repeat constructor | done].
Qed.

Lemma invoke_outcome fuel policy v w res w' :
  invoke fuel policy {[ "user_prompt" := v ]} w = (res, w') →
  ∃ evs, trace w' = trace w ++ evs ∧ outcome evs res.
Proof.
  unfold invoke. change (entry_point graph) with (Some "plan").
  intros Hrun. destruct fuel as [|fuel].
  { injection Hrun as <- <-. exists []. rewrite app_nil_r. split; [done |].
    left. split; [constructor | by right]. }
  rewrite execute_plan in Hrun.
  rewrite (plannerAgent_cases _ _ v (lookup_singleton_eq _ _)) in Hrun. cbv zeta in Hrun.
  destruct (structured_plan llm _ _) as [e|[p|]].
  1:{ injection Hrun as <- <-. eexists [NodeInvoked "plan"; BackendCall _ false].
      split; [simpl; by rewrite <- app_assoc |].
      right. right. eexists [NodeInvoked "plan"], _, _. split; [done |].
      split; [by repeat constructor | done]. }
  2:{ injection Hrun as <- <-. eexists [NodeInvoked "plan"; BackendCall _ true].
      split; [simpl; by rewrite <- app_assoc |].
      right. left. eexists [NodeInvoked "plan"], _, _. split; [done |].
      split; [by repeat constructor | done]. }
  set (s1 := merge_state policy _ _) in Hrun. set (w1 := logged _ (logged _ w)) in Hrun.
  assert (s1 !! "plan" = Some (VPlan p)) as Hplan
    by apply lookup_merge_state_Some, lookup_singleton_eq.
  assert (s1 !! "coder_state" = None) as Hnocs
    by (by apply lookup_merge_state_None).
  destruct fuel as [|fuel].
  { injection Hrun as <- <-. eexists [NodeInvoked "plan"; BackendCall _ false].
    split; [simpl; by rewrite <- app_assoc |].
    left. split; [by repeat constructor | by right]. }
  rewrite execute_architect in Hrun.
  rewrite (architectAgent_cases _ _ _ Hplan) in Hrun. cbv zeta in Hrun.
  destruct (structured_task_plan llm _ _) as [e|[tp|]].
  1:{ injection Hrun as <- <-.
      eexists [NodeInvoked "plan"; BackendCall _ false;
               NodeInvoked "architect"; BackendCall _ false].
      split; [simpl; by rewrite <- !app_assoc |].
      right. right.
      eexists [NodeInvoked "plan"; BackendCall _ false; NodeInvoked "architect"], _, _.
      split; [done |]. split; [by repeat constructor | done]. }
  2:{ injection Hrun as <- <-.
      eexists [NodeInvoked "plan"; BackendCall _ false;
               NodeInvoked "architect"; BackendCall _ true].
      split; [simpl; by rewrite <- !app_assoc |].
      right. left.
      eexists [NodeInvoked "plan"; BackendCall _ false; NodeInvoked "architect"], _, _.
      split; [done |]. split; [by repeat constructor | done]. }
  set (s2 := merge_state policy s1 _) in Hrun. set (w2 := logged _ (logged _ w1)) in Hrun.
  assert (seen_coder_state s2 w2 = Some {| task_plan := tp; current_step_idx := 0 |})
    as Hseen.
  { unfold seen_coder_state, dict_get.
    assert (s2 !! "coder_state" = None) as -> by (by apply lookup_merge_state_None).
    assert (s2 !! "task_plan" = Some (VTaskPlan tp)) as ->
      by apply lookup_merge_state_Some, lookup_insert_eq.
    done. }
  destruct (coder_loop_outcome policy fuel _ _ _ _ _ Hseen (Z.le_refl 0) Hrun)
    as (evs & Htr & Hout).
  eexists. split; [rewrite Htr; simpl; by rewrite <- !app_assoc |].
  eapply (outcome_app [NodeInvoked "plan"; BackendCall _ false;
                       NodeInvoked "architect"; BackendCall _ false]); [| done].
  by repeat constructor.
Qed.

(** C5.  What a role comes to is decided by what the backend invocation it
    makes comes to.  When the invocation returns [None] the role raises its
    own [ValueError]; when the invocation itself raises, that exception
    leaves the role unchanged; when it returns a value the role returns its
    dictionary, built from that value.  So a role raises exactly when its
    backend invocation returned [None] or raised.  A coder whose cursor is
    at or beyond the number of steps makes no invocation and returns.  The
    executor ends the run in the exception of the role it invoked, without
    following an edge.  So in a run an invocation that returned [None] is
    the last thing that happens, no further role is invoked, and the run
    ends in the role's [ValueError]; and a run that ends in an exception
    other than for lack of fuel ends right after a backend invocation. *)
Theorem roles_follow_the_backend_answer :
  (∀ s w v, s !! "user_prompt" = Some v →
     let prompt := plan_prompt (str_in (heap w) v) in
     plannerAgent s w =
       match structured_plan llm (trace w) prompt with
       | inl e => (inl e, logged (BackendCall (Structured "Plan" prompt) false) w)
       | inr None =>
           (inl (ValueError
                   "Planner agent failed to generate a valid response for Planner Agent"),
            logged (BackendCall (Structured "Plan" prompt) true) w)
       | inr (Some p) =>
           (inr {[ "plan" := VPlan p ]},
            logged (BackendCall (Structured "Plan" prompt) false) w)
       end) ∧
  (∀ s w v, s !! "plan" = Some v →
     let prompt := architect_prompt (plan_text (heap w) v) in
     architectAgent s w =
       match structured_task_plan llm (trace w) prompt with
       | inl e => (inl e, logged (BackendCall (Structured "TaskPlan" prompt) false) w)
       | inr None =>
           (inl (ValueError
                   "Architect agent failed to generate a valid response for Architect Agent"),
            logged (BackendCall (Structured "TaskPlan" prompt) true) w)
       | inr (Some tp) =>
           (inr (<[ "task_plan" := VTaskPlan tp ]> {[ "plan" := v ]}),
            logged (BackendCall (Structured "TaskPlan" prompt) false) w)
       end) ∧
  (∀ s w cs, seen_coder_state s w = Some cs →
     (0 ≤ current_step_idx cs < step_count cs)%Z →
     ∃ task,
       implementation_steps (task_plan cs) !! Z.to_nat (current_step_idx cs) = Some task ∧
       ∃ r w',
         trace w' = trace w ++
           [ FileRead (filepath task);
             BackendCall (AgentInvoke (coder_messages task w))
               (is_null (react_agent llm (trace w ++ [FileRead (filepath task)]) (fs w)
                           (coder_messages task w)).1) ] ∧
         match (react_agent llm (trace w ++ [FileRead (filepath task)]) (fs w)
                  (coder_messages task w)).1 with
         | inl e => coderAgent s w = (inl e, w')
         | inr None =>
             coderAgent s w =
               (inl (ValueError
                       "Coder agent failed to generate a valid response for Coder Agent"),
                w')
         | inr (Some _) =>
             coderAgent s w = (inr {[ "coder_state" := VCoderState r ]}, w') ∧
             heap w' !! r = Some (advanced cs)
         end) ∧
  (∀ s w cs, seen_coder_state s w = Some cs →
     (step_count cs ≤ current_step_idx cs)%Z →
     ∃ r w', coderAgent s w = (inr (DONE_signal r), w') ∧ trace w' = trace w) ∧
  (∀ fuel policy name (action : gmap string pyval → M (gmap string pyval)) s w e w',
     nodes graph !! name = Some action →
     action s (logged (NodeInvoked name) w) = (inl e, w') →
     execute (S fuel) graph policy (Node name) s w = (inl e, w')) ∧
  (∀ fuel policy v w res w',
     invoke fuel policy {[ "user_prompt" := v ]} w = (res, w') →
     ∃ evs, trace w' = trace w ++ evs ∧
       (∀ pre req post, evs = pre ++ BackendCall req true :: post →
          post = [] ∧ ∃ msg, res = inl (ValueError msg)) ∧
       (∀ e, res = inl e →
          e = GraphRecursionError ∨ ∃ pre req null, evs = pre ++ [BackendCall req null])).
Proof.
  split; [| split; [| split; [| split; [| split]]]].
  - intros s w v Hs. apply (plannerAgent_cases s w v Hs).
  - intros s w v Hs. apply (architectAgent_cases s w v Hs).
  - intros s w cs Hseen Hrange.
    destruct (coder_step_by_answer s w cs Hseen Hrange)
      as (task & Htask & r & w' & Htr & Hcase).
    exists task. split; [done |]. exists r, w'. split; [done |].
    destruct (react_agent _ _ _ _).1 as [e|[t|]]; by destruct Hcase.
  - intros s w cs Hseen Hge.
    destruct (coder_terminal_cases _ _ _ Hseen Hge) as (r & w1 & Hco & Htr & _ & _).
    by exists r, w1.
  - intros fuel policy name action s w e w' Hnode Hrole.
    by rewrite (execute_node fuel graph policy name action s w Hnode), Hrole.
  - intros fuel policy v w res w' Hrun.
    destruct (invoke_outcome _ _ _ _ _ _ Hrun) as (evs & Htr & Hout).
    exists evs. split; [done |]. by apply outcome_null_is_last.
Qed.

(** ** Termination of the coder loop *)

Lemma count_events_app P evs1 evs2 :
  count_events P (evs1 ++ evs2) = count_events P evs1 + count_events P evs2.
Proof. induction evs1 as [|e evs1 IH]; simpl; [done |]. rewrite IH. lia. Qed.

Lemma status_not_DONE (s : gmap string pyval) :
  s !! "status" = None → status_is_DONE s = false.
Proof.
  intros Hs. destruct (status_is_DONE s) eqn:E; [| done].
  apply status_is_DONE_spec in E. congruence.
Qed.

(** With an agent that always answers, the loop at the coder node makes as
    many processing invocations as steps remain and one more invocation
    that signals completion. *)
Lemma coder_loop_runs policy :
  (∀ tr f msgs, ∃ t, (react_agent llm tr f msgs).1 = inr (Some t)) →
  ∀ (m : nat) s w cs fuel,
    seen_coder_state s w = Some cs →
    (0 ≤ current_step_idx cs)%Z →
    step_count cs = (current_step_idx cs + Z.of_nat m)%Z →
    s !! "status" = None →
    m < fuel →
    ∃ final w' evs,
      execute fuel graph policy (Node "coder") s w = (inr final, w') ∧
      trace w' = trace w ++ evs ∧
      count_events (is_invocation "coder") evs = S m ∧
      count_events is_agent_call evs = m ∧
      count_events (is_invocation "plan") evs = 0 ∧
      count_events (is_invocation "architect") evs = 0 ∧
      final !! "status" = Some (VStr "DONE").
Proof.
  intros Hanswers. induction m as [|m IH]; intros s w cs fuel Hseen Hnn Hcount Hst Hfuel;
    (destruct fuel as [|fuel]; [lia |]); rewrite execute_coder;
    assert (seen_coder_state s (logged (NodeInvoked "coder") w) = Some cs) as Hseen' by done.
  - destruct (coder_terminal_cases _ _ _ Hseen') as (r & w1 & -> & Htr & _ & _); [lia |].
    assert (merge_state policy s (DONE_signal r) !! "status" = Some (VStr "DONE")) as Hdone
      by apply lookup_merge_state_Some, DONE_signal_status.
    rewrite (proj2 (status_is_DONE_spec _) Hdone), execute_END.
    by eexists _, _, [NodeInvoked "coder"].
  - destruct (coder_step_cases _ _ _ Hseen') as (task & tr & f & msgs & r & w1 & Htr & Hco);
      [lia |].
    destruct (Hanswers tr f msgs) as [t Ha]. rewrite Ha in Htr, Hco. cbn [is_null] in Htr.
    destruct Hco as [-> Hr].
    set (s' := merge_state policy s _).
    assert (s' !! "status" = None) as Hst' by (by apply lookup_merge_state_None).
    rewrite (status_not_DONE _ Hst').
    destruct (IH s' w1 (advanced cs) fuel) as (final & w' & evs & -> & Htr' & Hc & Ha' & Hp & Har & Hfin).
    { apply (seen_after_merge _ _ _ _ r); [apply lookup_singleton_eq | done]. }
    { simpl. lia. }
    { unfold step_count in *. simpl. lia. }
    { done. }
    { lia. }
    exists final, w',
      ([NodeInvoked "coder"; FileRead (filepath task); BackendCall (AgentInvoke msgs) false]
       ++ evs).
    split; [done |]. split; [rewrite Htr', Htr; simpl; by rewrite <- !app_assoc |].
    rewrite !count_events_app, Hc, Ha', Hp, Har. done.
Qed.

(** C3.  In a run of the pipeline in which the backend always answers and
    the architect's task plans have [n] steps, the executor invokes the
    coder [n + 1] times, [n] of which process a step through the agent, and
    then reaches the end with [status] "DONE"; the planner and the
    architect are invoked once each.  Any fuel of at least [n + 3] node
    invocations is enough. *)
Theorem coder_invoked_once_more_than_steps (n : nat) policy v w (fuel : nat) :
  (∀ tr q, ∃ p, structured_plan llm tr q = inr (Some p)) →
  (∀ tr q, ∃ tp, structured_task_plan llm tr q = inr (Some tp) ∧
                 length (implementation_steps tp) = n) →
  (∀ tr f msgs, ∃ t, (react_agent llm tr f msgs).1 = inr (Some t)) →
  (n + 3 ≤ fuel)%nat →
  ∃ final w' evs,
    invoke fuel policy {[ "user_prompt" := v ]} w = (inr final, w') ∧
    trace w' = trace w ++ evs ∧
    count_events (is_invocation "coder") evs = (n + 1)%nat ∧
    count_events is_agent_call evs = n ∧
    count_events (is_invocation "plan") evs = 1 ∧
    count_events (is_invocation "architect") evs = 1 ∧
    final !! "status" = Some (VStr "DONE").
Proof.
  intros Hplanner Harchitect Hagent Hfuel.
  unfold invoke. change (entry_point graph) with (Some "plan").
  destruct fuel as [|[|fuel]]; [lia | lia |].
  rewrite execute_plan.
  rewrite (plannerAgent_cases _ _ v (lookup_singleton_eq _ _)). cbv zeta.
  destruct (Hplanner (trace (logged (NodeInvoked "plan") w))
              (plan_prompt (str_in (heap (logged (NodeInvoked "plan") w)) v))) as [p ->].
  set (s1 := merge_state policy _ _). set (w1 := logged _ (logged _ w)).
  assert (s1 !! "plan" = Some (VPlan p)) as Hplan
    by apply lookup_merge_state_Some, lookup_singleton_eq.
  assert (s1 !! "coder_state" = None) as Hnocs by (by apply lookup_merge_state_None).
  assert (s1 !! "status" = None) as Hnost by (by apply lookup_merge_state_None).
  rewrite execute_architect, (architectAgent_cases _ _ _ Hplan). cbv zeta.
  destruct (Harchitect (trace (logged (NodeInvoked "architect") w1))
              (architect_prompt (plan_text (heap (logged (NodeInvoked "architect") w1))
                                   (VPlan p)))) as (tp & -> & Hlen).
  set (s2 := merge_state policy s1 _). set (w2 := logged _ (logged _ w1)).
  assert (seen_coder_state s2 w2 = Some {| task_plan := tp; current_step_idx := 0 |})
    as Hseen.
  { unfold seen_coder_state, dict_get.
    assert (s2 !! "coder_state" = None) as -> by (by apply lookup_merge_state_None).
    assert (s2 !! "task_plan" = Some (VTaskPlan tp)) as ->
      by apply lookup_merge_state_Some, lookup_insert_eq.
    done. }
  assert (s2 !! "status" = None) as Hnost2 by (by apply lookup_merge_state_None).
  destruct (coder_loop_runs policy Hagent n s2 w2 _ fuel Hseen)
    as (final & w' & evs & -> & Htr & Hc & Ha & Hpl & Har & Hfin);
    [done | unfold step_count; simpl; lia | done | lia |].
  eexists final, w', ([NodeInvoked "plan"; BackendCall _ false;
                       NodeInvoked "architect"; BackendCall _ false] ++ evs).
  split; [done |]. split; [rewrite Htr; simpl; by rewrite <- !app_assoc |].
  rewrite !count_events_app, Hc, Ha, Hpl, Har. simpl. repeat split; try lia. done.
Qed.

(** ** The program's request *)

(** C8.  The program runs the pipeline once, on the state that binds
    [user_prompt] to the embedded request, and prints the state the run
    ends in; the embedded request reads "claculator", not "calculator". *)
Theorem main_request_is_misspelt :
  (∀ fuel policy w,
     main fuel policy w =
     match invoke fuel policy {[ "user_prompt" := VStr user_prompt ]} w with
     | (inl e, w') => (inl e, w')
     | (inr result, w') => (inr tt, logged (Printed result) w')
     end) ∧
  user_prompt = "Create a simple claculator web app" ∧
  user_prompt ≠ "Create a simple calculator web app".
Proof.
  split; [| split; [reflexivity | discriminate]].
  intros fuel policy w. unfold main, bind.
  by destruct (invoke fuel policy _ w) as [[e|result] w'].
Qed.

(** ** Further properties of the roles *)

(** Every way an invocation of the coder can go, once its coder state is
    in the state dictionary. *)
Lemma coderAgent_resolved_cases s w r cs :
  dict_get s "coder_state" = VCoderState r →
  heap w !! r = Some cs →
  coderAgent s w = (inr (DONE_signal r), w) ∨
  coderAgent s w = (inl IndexError, w) ∨
  ∃ task,
    py_index (implementation_steps (task_plan cs)) (current_step_idx cs) = Some task ∧
    ((∃ e, coderAgent s w = (inl e, after_agent task w)) ∨
     coderAgent s w =
       (inr {[ "coder_state" := VCoderState r ]},
        {| heap := <[ r := advanced cs ]> (heap w);
           fs := fs (after_agent task w); trace := trace (after_agent task w) |})).
Proof.
  intros Hget Hr.
  destruct (decide (step_count cs ≤ current_step_idx cs)%Z) as [Hge | Hlt].
  { left. by apply (coderAgent_terminal s w r cs). }
  right.
  destruct (py_index (implementation_steps (task_plan cs)) (current_step_idx cs))
    as [task|] eqn:Hidx.
  - right. exists task. split; [done |].
    rewrite (coderAgent_step s w r cs task Hget Hr ltac:(lia) Hidx).
    destruct (react_agent _ _ _ _).1 as [e|[t|]]; [left | right | left]; by eauto.
  - left. apply (coderAgent_index_error s w r cs Hget Hr); [lia | done].
Qed.

(** An invocation of the coder either fails on a malformed state, leaving
    the world as it was, or goes on as an invocation on a state that holds
    its coder state: the state itself, or the state with a newly allocated
    coder state at cursor 0. *)
Lemma coderAgent_malformed_or_resolved s w :
  (∃ e, coderAgent s w = (inl e, w) ∧ seen_coder_state s w = None) ∨
  (∃ s1 w1 r cs,
     coderAgent s w = coderAgent s1 w1 ∧
     seen_coder_state s w = Some cs ∧
     dict_get s1 "coder_state" = VCoderState r ∧
     heap w1 !! r = Some cs ∧
     ((s1 = s ∧ w1 = w) ∨
      (dict_get s "coder_state" = VNone ∧ w1 = alloc cs w ∧ r = fresh (dom (heap w))))).
Proof.
  unfold seen_coder_state.
  destruct (dict_get s "coder_state") as [|x|x|x|r] eqn:Hget.
  - destruct (s !! "task_plan") as [[|x|x|tp|x]|] eqn:Htp;
      try (left; eexists; split; [| done];
           unfold coderAgent, bind, dict_getitem; by rewrite Hget, Htp).
    right. eexists _, _, _, _.
    split; [apply (coderAgent_fresh s w tp Hget Htp) |]. split; [done |].
    split; [unfold dict_get; by rewrite lookup_insert_eq |].
    split; [apply lookup_insert_eq |]. by right.
  - left. eexists. split; [| done]. unfold coderAgent, bind. by rewrite Hget.
  - left. eexists. split; [| done]. unfold coderAgent, bind. by rewrite Hget.
  - left. eexists. split; [| done]. unfold coderAgent, bind. by rewrite Hget.
  - destruct (heap w !! r) as [cs|] eqn:Hr.
    + right. exists s, w, r, cs. repeat (split; [done |]). by left.
    + left. eexists. split; [| done]. unfold coderAgent, bind. rewrite Hget. simpl.
      by rewrite Hr.
Qed.

(** X1.  A role whose input key is missing raises [KeyError] for that key
    and leaves the world as it was: nothing was sent to the backend and no
    file was read.  For the coder the missing key is [task_plan], needed
    when the state has no coder state yet.  A run on a state without
    [user_prompt] ends in that error after invoking the planner only. *)
Theorem roles_raise_KeyError_on_missing_key :
  (∀ s w, s !! "user_prompt" = None →
          plannerAgent s w = (inl (KeyError "user_prompt"), w)) ∧
  (∀ s w, s !! "plan" = None →
          architectAgent s w = (inl (KeyError "plan"), w)) ∧
  (∀ s w, dict_get s "coder_state" = VNone → s !! "task_plan" = None →
          coderAgent s w = (inl (KeyError "task_plan"), w)) ∧
  (∀ fuel policy s w, s !! "user_prompt" = None →
          invoke (S fuel) policy s w =
            (inl (KeyError "user_prompt"), logged (NodeInvoked "plan") w)).
Proof.
  assert (∀ s w, s !! "user_prompt" = None →
                 plannerAgent s w = (inl (KeyError "user_prompt"), w)) as Hplanner.
  { intros s w Hs. unfold plannerAgent, bind, dict_getitem. by rewrite Hs. }
  split; [exact Hplanner |]. split; [| split].
  - intros s w Hs. unfold architectAgent, bind, dict_getitem. by rewrite Hs.
  - intros s w Hget Hs. unfold coderAgent, bind, dict_getitem. by rewrite Hget, Hs.
  - intros fuel policy s w Hs. unfold invoke. change (entry_point graph) with (Some "plan").
    cbv beta iota. by rewrite execute_plan, (Hplanner s _ Hs).
Qed.

(** X2.  On a state that holds a request, whatever the planner returns is
    the dictionary with the single key [plan], bound to the backend's
    answer to the planner prompt built from the request's text; the request
    itself is not among the returned keys, and the only thing that happened
    is that one backend invocation. *)
Theorem planner_returns_the_backend_plan s w v :
  s !! "user_prompt" = Some v →
  ∀ u w', plannerAgent s w = (inr u, w') →
    ∃ p, structured_plan llm (trace w) (plan_prompt (str_in (heap w) v)) = inr (Some p) ∧
         u = {[ "plan" := VPlan p ]} ∧
         u !! "user_prompt" = None ∧
         w' = logged (BackendCall (Structured "Plan" (plan_prompt (str_in (heap w) v))) false) w.
Proof.
  intros Hs u w'. rewrite (plannerAgent_cases s w v Hs). cbv zeta.
  destruct (structured_plan llm _ _) as [e|[p|]]; [discriminate | | discriminate].
  intros [= <- <-]. by exists p.
Qed.

(** X3.  Each role looks at its own keys only: the planner at
    [user_prompt], the architect at [plan], the coder at [coder_state] and,
    when that is absent or [None], at [task_plan].  Two states that agree
    there make the role behave the same, whatever else they hold. *)
Theorem roles_read_only_their_keys s1 s2 w :
  (s1 !! "user_prompt" = s2 !! "user_prompt" → plannerAgent s1 w = plannerAgent s2 w) ∧
  (s1 !! "plan" = s2 !! "plan" → architectAgent s1 w = architectAgent s2 w) ∧
  (dict_get s1 "coder_state" = dict_get s2 "coder_state" →
   (dict_get s1 "coder_state" = VNone → s1 !! "task_plan" = s2 !! "task_plan") →
   coderAgent s1 w = coderAgent s2 w).
Proof.
  split; [| split].
  - intros H. unfold plannerAgent, bind, dict_getitem. by rewrite H.
  - intros H. unfold architectAgent, bind, dict_getitem. by rewrite H.
  - intros Hcs Htp. unfold coderAgent, bind, dict_getitem. rewrite <- Hcs.
    destruct (dict_get s1 "coder_state"); [| done..]. by rewrite Htp.
Qed.

(** X4.  When the state holds the coder state and a step is processed, the
    returned dictionary names the very object the state holds, and that
    object was advanced in place: read through the state that was passed
    in, without any merge, the cursor is one further.  No other object of
    the store was touched. *)
Theorem coder_advances_the_state_object_in_place s w r cs :
  s !! "coder_state" = Some (VCoderState r) →
  heap w !! r = Some cs →
  (current_step_idx cs < step_count cs)%Z →
  ∀ u w', coderAgent s w = (inr u, w') →
    u !! "coder_state" = s !! "coder_state" ∧
    seen_coder_state s w' = Some (advanced cs) ∧
    (∀ r0, r0 ≠ r → heap w' !! r0 = heap w !! r0).
Proof.
  intros Hs Hr Hlt u w'.
  assert (dict_get s "coder_state" = VCoderState r) as Hget
    by (unfold dict_get; by rewrite Hs).
  destruct (py_index (implementation_steps (task_plan cs)) (current_step_idx cs))
    as [task|] eqn:Hidx.
  - rewrite (coderAgent_step s w r cs task Hget Hr Hlt Hidx).
    destruct (react_agent _ _ _ _).1 as [e|[t|]]; [discriminate | | discriminate].
    intros [= <- <-]. rewrite Hs. split; [apply lookup_singleton_eq |]. split.
    + unfold seen_coder_state. rewrite Hget. simpl. apply lookup_insert_eq.
    + intros r0 Hne. simpl. by rewrite lookup_insert_ne.
  - by rewrite (coderAgent_index_error s w r cs Hget Hr Hlt Hidx).
Qed.

Lemma coder_frame_resolved s w r cs r0 cs0 :
  dict_get s "coder_state" = VCoderState r →
  heap w !! r = Some cs →
  heap w !! r0 = Some cs0 →
  ∃ cs1, heap (coderAgent s w).2 !! r0 = Some cs1 ∧
         (cs1 = cs0 ∨ (cs1 = advanced cs0 ∧ r0 = r ∧ ∃ u, (coderAgent s w).1 = inr u)).
Proof.
  intros Hget Hr Hr0.
  destruct (coderAgent_resolved_cases s w r cs Hget Hr)
    as [-> | [-> | (task & _ & [[e1 ->] | ->])]]; simpl; try (exists cs0; split; [done | by left]).
  destruct (decide (r0 = r)) as [-> | Hne].
  - rewrite lookup_insert_eq. exists (advanced cs). split; [done |]. right.
    rewrite Hr in Hr0. injection Hr0 as ->. split; [done |]. split; [done | by eexists].
  - rewrite lookup_insert_ne by done. exists cs0. split; [done | by left].
Qed.

(** X5.  Whatever the state and however the invocation ends, the coder
    removes no object from the store and changes no stored task plan: an
    object either stays as it was or, when it is the state's coder state
    and the invocation returned, has its cursor advanced by one. *)
Theorem coder_keeps_the_stored_task_plans s w r0 cs0 :
  heap w !! r0 = Some cs0 →
  ∃ cs1, heap (coderAgent s w).2 !! r0 = Some cs1 ∧
         task_plan cs1 = task_plan cs0 ∧
         (cs1 = cs0 ∨
          (cs1 = advanced cs0 ∧ dict_get s "coder_state" = VCoderState r0 ∧
           ∃ u, (coderAgent s w).1 = inr u)).
Proof.
  intros Hr0.
  destruct (coderAgent_malformed_or_resolved s w)
    as [(e & -> & _) | (s1 & w1 & r & cs & -> & _ & Hget & Hr & Hcase)].
  { exists cs0. split; [done |]. split; [done | by left]. }
  destruct Hcase as [[-> ->] | (Hnone & -> & ->)].
  - destruct (coder_frame_resolved s w r cs r0 cs0 Hget Hr Hr0)
      as (cs1 & Hcs1 & [-> | (-> & -> & Hu)]).
    + exists cs0. split; [done |]. split; [done | by left].
    + exists (advanced cs0). split; [done |]. split; [done | by right].
  - assert (r0 ≠ fresh (dom (heap w))) as Hne.
    { intros ->. rewrite fresh_loc_unused in Hr0. discriminate. }
    assert (heap (alloc cs w) !! r0 = Some cs0) as Hr0'
      by (simpl; by rewrite lookup_insert_ne).
    destruct (coder_frame_resolved s1 (alloc cs w) _ cs r0 cs0 Hget Hr Hr0')
      as (cs1 & Hcs1 & [-> | (_ & Heq & _)]); [| done].
    exists cs0. split; [done |]. split; [done | by left].
Qed.

(** X6.  An invocation of the coder that raises leaves the coder state the
    state refers to where it was: the cursor is not advanced, also when the
    agent had been invoked and had changed files before answering [None]. *)
Theorem coder_failure_keeps_the_cursor s w e :
  (coderAgent s w).1 = inl e →
  seen_coder_state s (coderAgent s w).2 = seen_coder_state s w.
Proof.
  destruct (coderAgent_malformed_or_resolved s w)
    as [(e0 & -> & _) | (s1 & w1 & r & cs & -> & _ & Hget & Hr & Hcase)]; [done |].
  destruct Hcase as [[-> ->] | (Hnone & -> & ->)].
  - destruct (coderAgent_resolved_cases s w r cs Hget Hr)
      as [-> | [-> | (task & _ & [[e1 ->] | ->])]]; done.
  - intros _. unfold seen_coder_state. by rewrite Hnone.
Qed.

(** X7.  What a role does to the world is bounded, whatever the state: the
    planner and the architect leave the store and the filesystem alone and
    invoke the backend at most once, for their own schema; the coder either
    adds nothing to the history and leaves the filesystem alone, or reads
    one file and then invokes the agent once. *)
Theorem roles_effects_are_bounded s w :
  (heap (plannerAgent s w).2 = heap w ∧ fs (plannerAgent s w).2 = fs w ∧
   (trace (plannerAgent s w).2 = trace w ∨
    ∃ q null, trace (plannerAgent s w).2 = trace w ++ [BackendCall (Structured "Plan" q) null])) ∧
  (heap (architectAgent s w).2 = heap w ∧ fs (architectAgent s w).2 = fs w ∧
   (trace (architectAgent s w).2 = trace w ∨
    ∃ q null,
      trace (architectAgent s w).2 = trace w ++ [BackendCall (Structured "TaskPlan" q) null])) ∧
  ((trace (coderAgent s w).2 = trace w ∧ fs (coderAgent s w).2 = fs w) ∨
   ∃ path msgs null,
     trace (coderAgent s w).2 = trace w ++ [FileRead path; BackendCall (AgentInvoke msgs) null]).
Proof.
  split; [| split].
  - destruct (s !! "user_prompt") as [v|] eqn:Hs.
    + rewrite (plannerAgent_cases s w v Hs). cbv zeta.
      destruct (structured_plan llm _ _) as [e|[p|]];
        (split; [done |]); (split; [done |]); right; by eexists _, _.
    + unfold plannerAgent, bind, dict_getitem. rewrite Hs. simpl. by auto.
  - destruct (s !! "plan") as [v|] eqn:Hs.
    + rewrite (architectAgent_cases s w v Hs). cbv zeta.
      destruct (structured_task_plan llm _ _) as [e|[tp|]];
        (split; [done |]); (split; [done |]); right; by eexists _, _.
    + unfold architectAgent, bind, dict_getitem. rewrite Hs. simpl. by auto.
  - destruct (coderAgent_malformed_or_resolved s w)
      as [(e & -> & _) | (s1 & w1 & r & cs & -> & _ & Hget & Hr & Hcase)]; [by left |].
    assert (trace w1 = trace w ∧ fs w1 = fs w) as [Htr Hfs]
      by (destruct Hcase as [[-> ->] | (_ & -> & _)]; done).
    destruct (coderAgent_resolved_cases s1 w1 r cs Hget Hr)
      as [-> | [-> | (task & _ & [[e1 ->] | ->])]]; [by left | by left | right | right];
      eexists _, _, _; simpl; by rewrite Htr, <- app_assoc.
Qed.

(** X8.  The coder checks the cursor against the number of steps from above
    only.  With a negative cursor in the state's coder state it does not
    signal completion: below minus the number of steps the step lookup
    raises [IndexError] before anything is read or sent; otherwise the step
    counted from the end of the plan is the one whose file is read and for
    which the agent is invoked. *)
Theorem coder_negative_cursor s w r cs :
  dict_get s "coder_state" = VCoderState r →
  heap w !! r = Some cs →
  (current_step_idx cs < 0)%Z →
  ((current_step_idx cs < - step_count cs)%Z → coderAgent s w = (inl IndexError, w)) ∧
  ((- step_count cs ≤ current_step_idx cs)%Z →
   ∃ task msgs null,
     implementation_steps (task_plan cs)
       !! Z.to_nat (step_count cs + current_step_idx cs) = Some task ∧
     trace (coderAgent s w).2 =
       trace w ++ [FileRead (filepath task); BackendCall (AgentInvoke msgs) null]).
Proof.
  intros Hget Hr Hneg.
  assert (current_step_idx cs < step_count cs)%Z as Hlt by (unfold step_count; lia).
  assert (py_index (implementation_steps (task_plan cs)) (current_step_idx cs) =
          if (current_step_idx cs + step_count cs <? 0)%Z then None
          else implementation_steps (task_plan cs)
                 !! Z.to_nat (current_step_idx cs + step_count cs)) as Hidx.
  { unfold py_index, step_count.
    by destruct (Z.ltb_spec (current_step_idx cs) 0); [| lia]. }
  split.
  - intros Hlow. apply (coderAgent_index_error s w r cs Hget Hr Hlt).
    rewrite Hidx. by destruct (Z.ltb_spec (current_step_idx cs + step_count cs) 0); [| lia].
  - intros Hhigh.
    destruct (Z.ltb_spec (current_step_idx cs + step_count cs) 0); [lia |].
    destruct (lookup_lt_is_Some_2 (implementation_steps (task_plan cs))
                (Z.to_nat (current_step_idx cs + step_count cs)))
      as [task Htask]; [unfold step_count in *; lia |].
    rewrite Htask in Hidx.
    rewrite (coderAgent_step s w r cs task Hget Hr Hlt Hidx).
    exists task. rewrite Z.add_comm.
    destruct (react_agent _ _ _ _).1 as [e|[t|]]; eexists _, _; (split; [done |]); simpl;
      by rewrite <- app_assoc.
Qed.

(** ** The steps of a run, in order *)

Lemma coder_step_cases_at s w cs :
  seen_coder_state s w = Some cs →
  (0 ≤ current_step_idx cs < step_count cs)%Z →
  ∃ task tr f msgs r w',
    implementation_steps (task_plan cs) !! Z.to_nat (current_step_idx cs) = Some task ∧
    trace w' = trace w ++
      [ FileRead (filepath task);
        BackendCall (AgentInvoke msgs) (is_null (react_agent llm tr f msgs).1) ] ∧
    match (react_agent llm tr f msgs).1 with
    | inl e => coderAgent s w = (inl e, w')
    | inr None =>
        coderAgent s w =
        (inl (ValueError "Coder agent failed to generate a valid response for Coder Agent"), w')
    | inr (Some _) =>
        coderAgent s w = (inr {[ "coder_state" := VCoderState r ]}, w') ∧
        heap w' !! r = Some (advanced cs)
    end.
Proof.
  intros Hseen Hrange.
  destruct (coder_step_by_answer s w cs Hseen Hrange)
    as (task & Htask & r & w' & Htr & Hcase).
  eexists task, _, _, _, r, w'. split; [exact Htask |]. split; [exact Htr |].
  destruct (react_agent _ _ _ _).1 as [e|[t|]]; by destruct Hcase.
Qed.

(** With an agent that always answers, the loop at the coder node reads the
    target files of the remaining steps, in the order of the plan, and ends
    with the cursor at the number of steps. *)
Lemma coder_loop_reads policy :
  (∀ tr f msgs, ∃ t, (react_agent llm tr f msgs).1 = inr (Some t)) →
  ∀ (m : nat) s w cs fuel,
    seen_coder_state s w = Some cs →
    (0 ≤ current_step_idx cs)%Z →
    step_count cs = (current_step_idx cs + Z.of_nat m)%Z →
    s !! "status" = None →
    m < fuel →
    ∃ final w' evs r,
      execute fuel graph policy (Node "coder") s w = (inr final, w') ∧
      trace w' = trace w ++ evs ∧
      file_reads evs =
        filepath <$> drop (Z.to_nat (current_step_idx cs)) (implementation_steps (task_plan cs)) ∧
      final !! "coder_state" = Some (VCoderState r) ∧
      heap w' !! r = Some {| task_plan := task_plan cs; current_step_idx := step_count cs |}.
Proof.
  intros Hanswers. induction m as [|m IH]; intros s w cs fuel Hseen Hnn Hcount Hst Hfuel;
    (destruct fuel as [|fuel]; [lia |]); rewrite execute_coder;
    assert (seen_coder_state s (logged (NodeInvoked "coder") w) = Some cs) as Hseen' by done.
  - destruct (coder_terminal_cases _ _ _ Hseen') as (r & w1 & -> & Htr & _ & Hr); [lia |].
    assert (merge_state policy s (DONE_signal r) !! "status" = Some (VStr "DONE")) as Hdone
      by apply lookup_merge_state_Some, DONE_signal_status.
    rewrite (proj2 (status_is_DONE_spec _) Hdone), execute_END.
    exists (merge_state policy s (DONE_signal r)), w1, [NodeInvoked "coder"], r.
    split; [done |]. split; [done |]. split.
    { rewrite drop_ge; [done |]. unfold step_count in Hcount. lia. }
    split; [apply lookup_merge_state_Some, DONE_signal_coder_state |].
    rewrite Hr. destruct cs as [tp i]. simpl in *. f_equal. f_equal. lia.
  - destruct (coder_step_cases_at _ _ _ Hseen')
      as (task & tr & f & msgs & r & w1 & Htask & Htr & Hco); [lia |].
    destruct (Hanswers tr f msgs) as [t Ha]. rewrite Ha in Htr, Hco. cbn [is_null] in Htr.
    destruct Hco as [-> Hr].
    set (s' := merge_state policy s _).
    assert (s' !! "status" = None) as Hst' by (by apply lookup_merge_state_None).
    rewrite (status_not_DONE _ Hst').
    destruct (IH s' w1 (advanced cs) fuel)
      as (final & w' & evs & r' & -> & Htr' & Hreads & Hfin & Hr').
    { apply (seen_after_merge _ _ _ _ r); [apply lookup_singleton_eq | done]. }
    { simpl. lia. }
    { unfold step_count in *. simpl. lia. }
    { done. }
    { lia. }
    exists final, w',
      ([NodeInvoked "coder"; FileRead (filepath task); BackendCall (AgentInvoke msgs) false]
       ++ evs), r'.
    split; [done |]. split; [rewrite Htr', Htr; simpl; by rewrite <- !app_assoc |].
    split; [| by split].
    simpl. rewrite Hreads. simpl.
    rewrite (drop_S _ _ _ Htask), fmap_cons. do 3 f_equal. lia.
Qed.

(** X9.  In a run in which the backend always answers, with plan [p] and
    task plan [tp], what happens is, in this order: the planner is invoked
    and asks for a plan for the request; the architect is invoked and asks
    for a task plan for the serialised plan [p]; then the coder loop reads
    the target files of the steps of [tp], each once and in the order of
    the plan.  The run returns with the coder state's cursor at the number
    of steps, over the architect's task plan. *)
Theorem run_processes_the_steps_in_order policy v w p tp (fuel : nat) :
  (∀ tr q, structured_plan llm tr q = inr (Some p)) →
  (∀ tr q, structured_task_plan llm tr q = inr (Some tp)) →
  (∀ tr f msgs, ∃ t, (react_agent llm tr f msgs).1 = inr (Some t)) →
  (length (implementation_steps tp) + 3 ≤ fuel)%nat →
  ∃ final w' evs r,
    invoke fuel policy {[ "user_prompt" := v ]} w = (inr final, w') ∧
    trace w' = trace w ++
      [ NodeInvoked "plan";
        BackendCall (Structured "Plan" (plan_prompt (str_in (heap w) v))) false;
        NodeInvoked "architect";
        BackendCall (Structured "TaskPlan"
                       (architect_prompt (model_dump_json (heap w) (VPlan p)))) false ]
      ++ evs ∧
    file_reads evs = filepath <$> implementation_steps tp ∧
    final !! "coder_state" = Some (VCoderState r) ∧
    heap w' !! r =
      Some {| task_plan := tp;
              current_step_idx := Z.of_nat (length (implementation_steps tp)) |}.
Proof.
  intros Hplanner Harchitect Hagent Hfuel.
  unfold invoke. change (entry_point graph) with (Some "plan"). cbv beta iota.
  destruct fuel as [|[|fuel]]; [lia | lia |].
  rewrite execute_plan.
  rewrite (plannerAgent_cases _ _ v (lookup_singleton_eq _ _)). cbv zeta.
  rewrite Hplanner.
  set (s1 := merge_state policy _ _). set (w1 := logged _ (logged _ w)).
  assert (s1 !! "plan" = Some (VPlan p)) as Hplan
    by apply lookup_merge_state_Some, lookup_singleton_eq.
  assert (s1 !! "coder_state" = None) as Hnocs by (by apply lookup_merge_state_None).
  assert (s1 !! "status" = None) as Hnost by (by apply lookup_merge_state_None).
  rewrite execute_architect, (architectAgent_cases _ _ _ Hplan). cbv zeta.
  rewrite Harchitect.
  set (s2 := merge_state policy s1 _). set (w2 := logged _ (logged _ w1)).
  assert (seen_coder_state s2 w2 = Some {| task_plan := tp; current_step_idx := 0 |})
    as Hseen.
  { unfold seen_coder_state, dict_get.
    assert (s2 !! "coder_state" = None) as -> by (by apply lookup_merge_state_None).
    assert (s2 !! "task_plan" = Some (VTaskPlan tp)) as ->
      by apply lookup_merge_state_Some, lookup_insert_eq.
    done. }
  assert (s2 !! "status" = None) as Hnost2 by (by apply lookup_merge_state_None).
  destruct (coder_loop_reads policy Hagent (length (implementation_steps tp)) s2 w2 _ fuel Hseen)
    as (final & w' & evs & r & -> & Htr & Hreads & Hfin & Hr);
    [done | unfold step_count; simpl; lia | done | lia |].
  exists final, w', evs, r.
  split; [done |]. split; [rewrite Htr; simpl; by rewrite <- !app_assoc |].
  by repeat split.
Qed.

(** ** The prompt builders *)

Lemma string_app_length (a b : string) :
  String.length (a +:+ b) = String.length a + String.length b.
Proof.
  induction a as [|c a IH]; [done |].
  change (String c a +:+ b) with (String c (a +:+ b)). simpl. by rewrite IH.
Qed.

Lemma string_app_inj_r (a b t : string) : a +:+ t = b +:+ t → a = b.
Proof.
  revert b. induction a as [|c a IH]; intros [|d b] H; [done | | |].
  - exfalso. apply (f_equal String.length) in H.
    rewrite (string_app_length (String d b) t) in H.
    change (String.length ("" +:+ t)) with (String.length t) in H. simpl in H. lia.
  - exfalso. apply (f_equal String.length) in H.
    rewrite (string_app_length (String c a) t) in H.
    change (String.length ("" +:+ t)) with (String.length t) in H. simpl in H. lia.
  - change (String c (a +:+ t) = String d (b +:+ t)) in H.
    injection H as -> H. f_equal. by apply IH.
Qed.

(** X10.  The planner prompt and the architect prompt carry their argument
    whole: two requests with the same planner prompt are the same request,
    and two serialised plans with the same architect prompt are the same
    text. *)
Theorem prompts_determine_their_argument :
  (∀ a b, plan_prompt a = plan_prompt b → a = b) ∧
  (∀ a b, architect_prompt a = architect_prompt b → a = b).
Proof.
  split; intros a b H.
  - unfold plan_prompt in H. apply (inj (String.app _)) in H.
    by apply string_app_inj_r in H.
  - unfold architect_prompt in H. apply (inj (String.app _)) in H.
    by apply string_app_inj_r in H.
Qed.

(** ** What the program prints *)

Lemma plannerAgent_silent s w :
  ∃ evs, trace (plannerAgent s w).2 = trace w ++ evs ∧ silent evs.
Proof.
  destruct (s !! "user_prompt") as [v|] eqn:Hs.
  - rewrite (plannerAgent_cases s w v Hs). cbv zeta.
    destruct (structured_plan llm _ _) as [e|[p|]]; eexists [_]; (split; [done |]);
      by repeat constructor.
  - exists []. unfold plannerAgent, bind, dict_getitem. rewrite Hs. simpl.
    split; [by rewrite app_nil_r | constructor].
Qed.

Lemma architectAgent_silent s w :
  ∃ evs, trace (architectAgent s w).2 = trace w ++ evs ∧ silent evs.
Proof.
  destruct (s !! "plan") as [v|] eqn:Hs.
  - rewrite (architectAgent_cases s w v Hs). cbv zeta.
    destruct (structured_task_plan llm _ _) as [e|[tp|]]; eexists [_]; (split; [done |]);
      by repeat constructor.
  - exists []. unfold architectAgent, bind, dict_getitem. rewrite Hs. simpl.
    split; [by rewrite app_nil_r | constructor].
Qed.

Lemma coderAgent_silent s w :
  ∃ evs, trace (coderAgent s w).2 = trace w ++ evs ∧ silent evs.
Proof.
  destruct (coderAgent_malformed_or_resolved s w)
    as [(e & -> & _) | (s1 & w1 & r & cs & -> & _ & Hget & Hr & Hcase)].
  { exists []. simpl. split; [by rewrite app_nil_r | constructor]. }
  assert (trace w1 = trace w) as Htr by (destruct Hcase as [[-> ->] | (_ & -> & _)]; done).
  destruct (coderAgent_resolved_cases s1 w1 r cs Hget Hr)
    as [-> | [-> | (task & _ & [[e1 ->] | ->])]]; simpl; rewrite Htr.
  - exists []. split; [by rewrite app_nil_r | constructor].
  - exists []. split; [by rewrite app_nil_r | constructor].
  - eexists [_; _]. rewrite <- app_assoc. split; [done | by repeat constructor].
  - eexists [_; _]. rewrite <- app_assoc. split; [done | by repeat constructor].
Qed.

Lemma nodes_graph_cases name (action : gmap string pyval → M (gmap string pyval)) :
  nodes graph !! name = Some action →
  action = plannerAgent ∨ action = architectAgent ∨ action = coderAgent.
Proof.
  unfold graph. simpl. rewrite !lookup_insert, lookup_empty.
  repeat case_decide; naive_solver.
Qed.

Lemma execute_silent policy fuel :
  ∀ cur s w,
    ∃ evs, trace (execute fuel graph policy cur s w).2 = trace w ++ evs ∧ silent evs.
Proof.
  induction fuel as [|fuel IH]; intros [|name] s w;
    try (exists []; simpl; split; [by rewrite app_nil_r | constructor]).
  destruct (nodes graph !! name) as [action|] eqn:Hnode.
  2:{ exists []. cbn [execute]. rewrite Hnode. simpl.
      split; [by rewrite app_nil_r | constructor]. }
  rewrite (execute_node fuel graph policy name action s w Hnode).
  assert (∃ evs, trace (action s (logged (NodeInvoked name) w)).2 =
                 trace w ++ NodeInvoked name :: evs ∧ silent evs) as (evs & Htr & Hsil).
  { destruct (nodes_graph_cases name action Hnode) as [-> | [-> | ->]];
      [destruct (plannerAgent_silent s (logged (NodeInvoked name) w)) as (evs & Htr & Hsil)
      |destruct (architectAgent_silent s (logged (NodeInvoked name) w)) as (evs & Htr & Hsil)
      |destruct (coderAgent_silent s (logged (NodeInvoked name) w)) as (evs & Htr & Hsil)];
      exists evs; (split; [| done]); rewrite Htr; simpl; by rewrite <- app_assoc. }
  destruct (action s _) as [[e|u] w1]; simpl in Htr.
  { exists (NodeInvoked name :: evs). split; [done | by constructor]. }
  destruct (next_target graph name _) as [e|next].
  { exists (NodeInvoked name :: evs). split; [done | by constructor]. }
  destruct (IH next (merge_state policy s u) w1) as (evs' & Htr' & Hsil').
  exists ((NodeInvoked name :: evs) ++ evs').
  split; [rewrite Htr', Htr; by rewrite <- app_assoc |].
  apply Forall_app_2; [by constructor | done].
Qed.

(** X11.  Nothing is printed while the pipeline runs.  When the run
    returns, the program prints the state the run ended in, once, as the
    last thing that happens; when the run raises, the program ends in the
    same exception and nothing is printed at all. *)
Theorem main_prints_the_final_state_once fuel policy w :
  ∃ evs,
    trace (invoke fuel policy {[ "user_prompt" := VStr user_prompt ]} w).2 = trace w ++ evs ∧
    silent evs ∧
    match (invoke fuel policy {[ "user_prompt" := VStr user_prompt ]} w).1 with
    | inr final =>
        (main fuel policy w).1 = inr tt ∧
        trace (main fuel policy w).2 = trace w ++ evs ++ [Printed final]
    | inl e =>
        (main fuel policy w).1 = inl e ∧
        trace (main fuel policy w).2 = trace w ++ evs
    end.
Proof.
  assert (∃ evs, trace (invoke fuel policy {[ "user_prompt" := VStr user_prompt ]} w).2 =
                 trace w ++ evs ∧ silent evs) as (evs & Htr & Hsil).
  { unfold invoke. change (entry_point graph) with (Some "plan"). cbv beta iota.
    apply execute_silent. }
  exists evs. split; [done |]. split; [done |].
  unfold main, bind.
  destruct (invoke fuel policy _ w) as [[e|final] w1]; simpl in *; [done |].
  split; [done |]. by rewrite Htr, app_assoc.
Qed.

End Pipeline.

(** ** The statements on the sample data *)

Example py_index_from_the_end : py_index sample_steps (-1) = sample_steps !! 1%nat.
Proof. reflexivity. Qed.

Example py_index_out_of_range : py_index sample_steps (-3) = None.
Proof. reflexivity. Qed.

Example sample_run_history :
  count_events (is_invocation "coder")
    (trace (main sample_llm sample_text sample_text 5 Replace empty_world).2) = 3 ∧
  last (trace (main sample_llm sample_text sample_text 5 Replace empty_world).2) =
    Some (Printed (DONE_signal 0)).
Proof. split; vm_compute; reflexivity. Qed.

Lemma coder_cursor_advances_by_one_witness :
  seen_coder_state state_with_coder_state (world_at 1) =
    Some {| task_plan := sample_task_plan; current_step_idx := 1 |} ∧
  (1 < 2)%Z ∧
  (∃ r w', coderAgent sample_llm state_with_coder_state (world_at 1) =
             (inr {[ "coder_state" := VCoderState r ]}, w') ∧
           heap w' !! r = Some {| task_plan := sample_task_plan; current_step_idx := 2 |}) ∧
  ∀ u w', coderAgent sample_llm state_with_coder_state (world_at 1) = (inr u, w') →
          ∃ r, u = {[ "coder_state" := VCoderState r ]} ∧
               u !! "status" = None ∧
               coderAgent sample_llm (merge_state Update state_with_coder_state u) w' =
                 (inr (DONE_signal r), w').
Proof.
  split; [reflexivity |]. split; [reflexivity |].
  destruct (coder_cursor_advances_by_one sample_llm state_with_coder_state (world_at 1)
              {| task_plan := sample_task_plan; current_step_idx := 1 |}
              eq_refl eq_refl) as [Hreturned Hanswer].
  split.
  - destruct Hanswer as (task & _ & Hstep); [discriminate |]. exact Hstep.
  - intros u w' Hrun.
    destruct (Hreturned u w' Hrun) as (r & Hu & Hstatus & _ & _ & _ & Hnext).
    exists r. split; [exact Hu |]. split; [exact Hstatus |].
    exact (Hnext Update eq_refl).
Defined.

Lemma coder_terminal_returns_DONE_witness :
  seen_coder_state state_with_coder_state (world_at 2) =
    Some {| task_plan := sample_task_plan; current_step_idx := 2 |} ∧
  (2 >= 2)%Z ∧
  ∃ r w', coderAgent sample_llm state_with_coder_state (world_at 2) =
            (inr (DONE_signal r), w') ∧
          trace w' = trace (world_at 2).
Proof.
  split; [reflexivity |]. split; [discriminate |].
  destruct (coder_terminal_returns_DONE sample_llm state_with_coder_state (world_at 2)
              {| task_plan := sample_task_plan; current_step_idx := 2 |}
              eq_refl ltac:(discriminate))
    as (r & w' & Hrun & _ & _ & _ & Htrace & _).
  exists r, w'. split; [exact Hrun | exact Htrace].
Defined.

Lemma coder_DONE_is_idempotent_witness :
  invoke_coder_repeatedly sample_llm Update 3 state_with_coder_state (world_at 2) =
    (inr (replicate 3 (DONE_signal 0)), world_at 2).
Proof.
  apply (coder_DONE_is_idempotent sample_llm Update 3 state_with_coder_state (world_at 2) 0
           {| task_plan := sample_task_plan; current_step_idx := 2 |}).
  - reflexivity.
  - reflexivity.
  - discriminate.
Defined.

Lemma coder_zero_steps_is_DONE_at_once_witness :
  coderAgent sample_llm state_with_empty_plan empty_world =
    (inr (DONE_signal (fresh (dom (heap empty_world)))),
     alloc {| task_plan := {| implementation_steps := [] |}; current_step_idx := 0 |}
           empty_world).
Proof.
  apply (coder_zero_steps_is_DONE_at_once sample_llm sample_text sample_text
           state_with_empty_plan empty_world
           {| implementation_steps := [] |}).
  - reflexivity.
  - reflexivity.
  - reflexivity.
Defined.

Lemma architect_passes_plan_through_witness :
  ∃ w', architectAgent sample_llm sample_text sample_text state_with_plan empty_world =
          (inr (<[ "task_plan" := VTaskPlan sample_task_plan ]> {[ "plan" := VPlan tt ]}), w').
Proof.
  apply (architect_passes_plan_through sample_llm sample_text sample_text
           state_with_plan empty_world (VPlan tt)).
  - reflexivity.
  - reflexivity.
Defined.


Lemma coder_invoked_once_more_than_steps_witness :
  ∃ final w' evs,
    invoke sample_llm sample_text sample_text 5 Update
      {[ "user_prompt" := VStr user_prompt ]} empty_world = (inr final, w') ∧
    trace w' = trace empty_world ++ evs ∧
    count_events (is_invocation "coder") evs = 3.
Proof.
  destruct (coder_invoked_once_more_than_steps sample_llm sample_text sample_text
              2 Update (VStr user_prompt) empty_world 5)
    as (final & w' & evs & Hrun & Htrace & Hcoder & _).
  - intros tr q. exists tt. reflexivity.
  - intros tr q. exists sample_task_plan. split; reflexivity.
  - intros tr f msgs. exists tt. reflexivity.
  - repeat constructor.
  - exists final, w', evs. split; [exact Hrun |]. split; [exact Htrace | exact Hcoder].
Defined.

Lemma planner_returns_the_backend_plan_witness :
  state_with_request !! "user_prompt" = Some (VStr "Create a to-do list app") ∧
  ∀ u w', plannerAgent sample_llm sample_text state_with_request empty_world = (inr u, w') →
          u = {[ "plan" := VPlan tt ]} ∧ u !! "user_prompt" = None.
Proof.
  split; [reflexivity |].
  intros u w' Hrun.
  destruct (planner_returns_the_backend_plan sample_llm sample_text state_with_request
              empty_world (VStr "Create a to-do list app") eq_refl u w' Hrun)
    as ([] & _ & Hu & Hreq & _).
  split; [exact Hu | exact Hreq].
Defined.

Lemma coder_advances_the_state_object_in_place_witness :
  state_with_coder_state !! "coder_state" = Some (VCoderState 0) ∧
  heap (world_at 0) !! 0 = Some {| task_plan := sample_task_plan; current_step_idx := 0 |} ∧
  (0 < 2)%Z ∧
  ∀ u w', coderAgent sample_llm state_with_coder_state (world_at 0) = (inr u, w') →
          seen_coder_state state_with_coder_state w' =
            Some {| task_plan := sample_task_plan; current_step_idx := 1 |}.
Proof.
  split; [reflexivity |]. split; [reflexivity |]. split; [reflexivity |].
  intros u w' Hrun.
  exact (proj1 (proj2 (coder_advances_the_state_object_in_place sample_llm
                         state_with_coder_state (world_at 0) 0
                         {| task_plan := sample_task_plan; current_step_idx := 0 |}
                         eq_refl eq_refl eq_refl u w' Hrun))).
Defined.

Lemma coder_keeps_the_stored_task_plans_witness :
  ∃ cs1, heap (coderAgent sample_llm state_with_coder_state (world_at 0)).2 !! 0 = Some cs1 ∧
         task_plan cs1 = sample_task_plan.
Proof.
  destruct (coder_keeps_the_stored_task_plans sample_llm state_with_coder_state (world_at 0) 0
              {| task_plan := sample_task_plan; current_step_idx := 0 |} eq_refl)
    as (cs1 & Hcs1 & Hplan & _).
  exists cs1. split; [exact Hcs1 | exact Hplan].
Defined.

Lemma coder_failure_keeps_the_cursor_witness :
  seen_coder_state state_with_coder_state
    (coderAgent mute_llm state_with_coder_state (world_at 0)).2 =
  seen_coder_state state_with_coder_state (world_at 0).
Proof.
  apply (coder_failure_keeps_the_cursor mute_llm state_with_coder_state (world_at 0)
           (ValueError "Coder agent failed to generate a valid response for Coder Agent")).
  reflexivity.
Defined.

Lemma coder_negative_cursor_witness :
  ∃ task msgs null,
    sample_steps !! 1%nat = Some task ∧
    trace (coderAgent sample_llm state_with_coder_state (world_at (-1))).2 =
      trace (world_at (-1)) ++ [FileRead (filepath task); BackendCall (AgentInvoke msgs) null].
Proof.
  apply (coder_negative_cursor sample_llm state_with_coder_state (world_at (-1)) 0
           {| task_plan := sample_task_plan; current_step_idx := -1 |}
           eq_refl eq_refl eq_refl).
  discriminate.
Defined.

Lemma run_processes_the_steps_in_order_witness :
  ∃ final w' (evs : list (@event unit)),
    invoke sample_llm sample_text sample_text 5 Replace state_with_request empty_world =
      (inr final, w') ∧
    file_reads evs = filepath <$> sample_steps.
Proof.
  destruct (run_processes_the_steps_in_order sample_llm sample_text sample_text Replace
              (VStr "Create a to-do list app") empty_world tt sample_task_plan 5)
    as (final & w' & evs & r & Hrun & _ & Hreads & _).
  - intros tr q. reflexivity.
  - intros tr q. reflexivity.
  - intros tr f msgs. exists tt. reflexivity.
  - repeat constructor.
  - exists final, w', evs. split; [exact Hrun | exact Hreads].
Defined.

(** A role can raise without a [None] answer: with a backend that cannot
    be reached the planner raises, and its backend invocation returned no
    [None], for it did not return at all.  So raising is not equivalent to
    a [None] answer. *)
Lemma planner_raises_without_null_answer :
  ¬ ((∃ e, (plannerAgent unreachable_llm sample_text state_with_request empty_world).1 = inl e) ↔
     structured_plan unreachable_llm (trace empty_world)
       (plan_prompt "Create a to-do list app") = inr None).
Proof.
  intros [Hraises _].
  assert (structured_plan unreachable_llm (trace empty_world)
            (plan_prompt "Create a to-do list app") = inr None) as Hnull.
  { apply Hraises. by exists (BackendError "Connection error."). }
  discriminate Hnull.
Qed.
